(** * Windowing and alignment cells of the WatsonX time-series notebook

    A shallow embedding of the data-shaping cells of
    [recipes/Time_Series/Getting_Started_with_WatsonX_AI_SDK.ipynb]:
    the CSV loading cell (timestamp repair), the cell that cuts context and
    ground-truth windows out of [input_df], and the plotting cell that puts
    ground truth and forecast side by side.

    Python integers are unbounded, so they are [Z].  A pandas DataFrame is a
    list of rows in positional order, a row a finite map from column name to
    cell; index labels are not modelled.  Frames and Python lists that the
    notebook mutates are objects in a store and are referred to by location;
    a Series is a temporary that is never mutated and is a plain list of
    cells.  The plotting cell only reads its three tables and takes them as
    values. *)

From stdpp Require Import base numbers list strings pretty gmap fin_maps sorting.

Local Open Scope Z_scope.

(** ** Cells, rows and frames *)

(** A cell: an integer, a string, a [datetime64[ns]] instant (nanoseconds
    since 1970-01-01T00:00:00) or a missing value (NaN). *)
Inductive value :=
  | VInt (z : Z)
  | VStr (s : string)
  | VTimestamp (ns : Z)
  | VNaN.

#[global] Instance value_eq_dec : EqDecision value.
Proof. solve_decision. Defined.

Abbreviation row := (gmap string value).
Abbreviation DataFrame := (list row).
Abbreviation Series := (list value).

(** Exceptions.  [ValueError], [TypeError], [AttributeError] and
    [OverflowError] are what Python and pandas raise in the modelled cells
    (out-of-bounds datetimes and timedeltas are all reported as
    [OverflowError] here).  [RangeError] and [AlignmentError]
    are the error kinds of the written specification; no modelled cell
    constructs them. *)
Inductive exn :=
  | ValueError
  | TypeError
  | AttributeError
  | OverflowError
  | RangeError (offset : Z)
  | AlignmentError.

#[global] Instance exn_eq_dec : EqDecision exn.
Proof. solve_decision. Defined.

(** ** Positional slicing *)

(** Python's normalisation of one slice bound against a length [n]: a negative
    bound counts from the end, and both kinds are clamped into [0, n]. *)
Definition slice_bound (n i : Z) : Z :=
  if i <? 0 then Z.max (i + n) 0 else Z.min i n.

(** [l[start:stop]], which is also [df.iloc[start:stop, :]] on rows. *)
Definition iloc {A} (l : list A) (start stop : Z) : list A :=
  let n := Z.of_nat (length l) in
  let a := slice_bound n start in
  let b := slice_bound n stop in
  take (Z.to_nat (b - a)) (drop (Z.to_nat a) l).

(** [l[start:]]. *)
Definition iloc_from {A} (l : list A) (start : Z) : list A :=
  drop (Z.to_nat (slice_bound (Z.of_nat (length l)) start)) l.

(** ** Column operations *)

(** [df[col]]: the column as a Series; a row without the cell reads as NaN. *)
Definition getitem (df : DataFrame) (col : string) : Series :=
  (λ r : row, default VNaN (r !! col)) <$> df.

(** [df[col] = v] with a scalar [v]: the scalar is broadcast to every row. *)
Definition setitem_scalar (df : DataFrame) (col : string) (v : value) : DataFrame :=
  (λ r : row, <[col := v]> r) <$> df.

(** [df[col] = s] with a Series [s] on the same index: row by row. *)
Definition setitem_series (df : DataFrame) (col : string) (s : Series) : DataFrame :=
  zip_with (λ (r : row) v, <[col := v]> r) df s.

(** [pd.concat(frames)]: the rows of the frames one after the other.  pandas
    refuses an empty list ("No objects to concatenate"). *)
Definition pd_concat {A} (frames : list (list A)) : exn + list A :=
  match frames with
  | [] => inl ValueError
  | _ => inr (concat frames)
  end.

(** The f-string [f"id_{i}"]. *)
Definition id_fstring (i : Z) : string := "id_" +:+ pretty i.

(** ** Timestamps *)

Definition ns_per_second : Z := 1000000000.
Definition ns_per_hour : Z := 3600 * ns_per_second.
Definition ns_per_day : Z := 24 * ns_per_hour.

(** An int64 nanosecond count; the least int64 is reserved for NaT. *)
Definition in_int64_ns (ns : Z) : bool :=
  (- 2 ^ 63 <? ns) && (ns <? 2 ^ 63).

(** [pd.Timedelta(x, unit="hr")], as nanoseconds; [None] is NaT, which is
    what a missing [x] gives. *)
Definition Timedelta_hr (x : value) : exn + option Z :=
  match x with
  | VInt h => if in_int64_ns (h * ns_per_hour) then inr (Some (h * ns_per_hour))
              else inl OverflowError
  | VNaN => inr None
  | _ => inl TypeError
  end.

(** One element of [datetime column + timedelta column]; a missing operand
    gives a missing (NaT) sum. *)
Definition add_timedelta (d : value) (td : option Z) : exn + value :=
  match d, td with
  | VTimestamp ns, Some t =>
      if in_int64_ns (ns + t) then inr (VTimestamp (ns + t)) else inl OverflowError
  | VTimestamp _, None => inr VNaN
  | VNaN, _ => inr VNaN
  | _, _ => inl TypeError
  end.

(** Proleptic Gregorian date of a day count since 1970-01-01. *)
Definition civil_from_days (days : Z) : Z * Z * Z :=
  let z := days + 719468 in
  let era := z / 146097 in
  let doe := z - era * 146097 in
  let yoe := (doe - doe / 1460 + doe / 36524 - doe / 146096) / 365 in
  let doy := doe - (365 * yoe + yoe / 4 - yoe / 100) in
  let mp := (5 * doy + 2) / 153 in
  let d := doy - (153 * mp + 2) / 5 + 1 in
  let m := if mp <? 10 then mp + 3 else mp - 9 in
  let y := yoe + era * 400 + (if m <=? 2 then 1 else 0) in
  (y, m, d).

(** Day count since 1970-01-01 of a proleptic Gregorian date. *)
Definition days_from_civil (y m d : Z) : Z :=
  let y' := if m <=? 2 then y - 1 else y in
  let era := y' / 400 in
  let yoe := y' - era * 400 in
  let mp := if m <=? 2 then m + 9 else m - 3 in
  let doy := (153 * mp + 2) / 5 + d - 1 in
  let doe := yoe * 365 + yoe / 4 - yoe / 100 + doy in
  era * 146097 + doe - 719468.

(** [f"{n:0wd}"] for a non-negative [n]. *)
Definition zero_pad (width : nat) (n : Z) : string :=
  let s := pretty (Z.to_N n) in
  String.string_of_list_ascii (replicate (width - String.length s) (Ascii.ascii_of_nat 48)) +:+ s.

(** [Timestamp.isoformat()] of a timezone-naive instant: seconds precision,
    with six fractional digits when there are microseconds and nine when
    there are nanoseconds. *)
Definition isoformat (ns : Z) : string :=
  let days := ns / ns_per_day in
  let rem := ns mod ns_per_day in
  let '(y, m, d) := civil_from_days days in
  let secs := rem / ns_per_second in
  let frac := rem mod ns_per_second in
  let base :=
    zero_pad 4 y +:+ "-" +:+ zero_pad 2 m +:+ "-" +:+ zero_pad 2 d +:+ "T" +:+
    zero_pad 2 (secs / 3600) +:+ ":" +:+ zero_pad 2 (secs / 60 mod 60) +:+ ":" +:+
    zero_pad 2 (secs mod 60) in
  if frac =? 0 then base
  else if frac mod 1000 =? 0 then base +:+ "." +:+ zero_pad 6 (frac / 1000)
  else base +:+ "." +:+ zero_pad 9 frac.

(** One element of [column.apply(lambda x: x.isoformat())]. *)
Definition isoformat_cell (x : value) : exn + value :=
  match x with
  | VTimestamp ns => inr (VStr (isoformat ns))
  | VNaN => inr (VStr "NaT")
  | _ => inl AttributeError
  end.

(** ** The error monad of pure pandas calls *)

Definition res (A : Type) : Type := exn + A.

#[global] Instance res_ret : MRet res := λ A x, inr x.
#[global] Instance res_bind : MBind res := λ A B f m,
  match m with inl e => inl e | inr x => f x end.

(** [series.apply(f)], element-wise binary operations and a [for] loop that
    keeps one result per element: all stop at the first element on which the
    function raises. *)
Fixpoint series_apply {A B} (f : A → res B) (s : list A) : res (list B) :=
  match s with
  | [] => inr []
  | x :: s' => y ← f x; ys ← series_apply f s'; mret (y :: ys)
  end.

(** ** The object store *)

Definition loc := positive.

Inductive obj :=
  | ODataFrame (df : DataFrame)
  | OList (items : list loc).

Abbreviation store := (gmap loc obj).

(** A cell either returns a value or raises; both leave a store behind. *)
Inductive outcome (A : Type) :=
  | Returned (a : A) (σ : store)
  | Raised (e : exn) (σ : store).
Arguments Returned {A} a σ.
Arguments Raised {A} e σ.

Definition final_store {A} (o : outcome A) : store :=
  match o with Returned _ σ => σ | Raised _ σ => σ end.

Definition M (A : Type) : Type := store → outcome A.

#[global] Instance M_ret : MRet M := λ A x σ, Returned x σ.
#[global] Instance M_bind : MBind M := λ A B f m σ,
  match m σ with
  | Returned x σ' => f x σ'
  | Raised e σ' => Raised e σ'
  end.

Definition raise {A} (e : exn) : M A := λ σ, Raised e σ.

Definition lift {A} (r : res A) : M A :=
  match r with inl e => raise e | inr x => mret x end.

(** A new object gets a location that is not in use. *)
Definition alloc (o : obj) : M loc := λ σ,
  let l := fresh (dom σ) in Returned l (<[l := o]> σ).

Definition read_frame (l : loc) : M DataFrame := λ σ,
  match σ !! l with
  | Some (ODataFrame df) => Returned df σ
  | _ => Raised TypeError σ
  end.

Definition read_list (l : loc) : M (list loc) := λ σ,
  match σ !! l with
  | Some (OList items) => Returned items σ
  | _ => Raised TypeError σ
  end.

Definition write (l : loc) (o : obj) : M unit := λ σ, Returned () (<[l := o]> σ).

(** [for x in xs: body(x)]. *)
Fixpoint for_each {A} (xs : list A) (body : A → M unit) : M unit :=
  match xs with
  | [] => mret ()
  | x :: xs' => body x;; for_each xs' body
  end.

(** [[f(x) for x in xs]], in order. *)
Fixpoint mapM_M {A B} (f : A → M B) (xs : list A) : M (list B) :=
  match xs with
  | [] => mret []
  | x :: xs' => y ← f x; ys ← mapM_M f xs'; mret (y :: ys)
  end.

(** *** pandas and list methods on objects *)

(** [df.iloc[start:stop, :]]: a new frame object. *)
Definition df_iloc (df : loc) (start stop : Z) : M loc :=
  rows ← read_frame df; alloc (ODataFrame (iloc rows start stop)).

(** [df.copy()]: a new frame object with the same rows. *)
Definition df_copy (df : loc) : M loc :=
  rows ← read_frame df; alloc (ODataFrame rows).

(** [df[col] = v], in place. *)
Definition df_setitem_scalar (df : loc) (col : string) (v : value) : M unit :=
  rows ← read_frame df; write df (ODataFrame (setitem_scalar rows col v)).

(** [df[col] = s], in place. *)
Definition df_setitem_series (df : loc) (col : string) (s : Series) : M unit :=
  rows ← read_frame df; write df (ODataFrame (setitem_series rows col s)).

(** [df[col]]. *)
Definition df_getitem (df : loc) (col : string) : M Series :=
  rows ← read_frame df; mret (getitem rows col).

(** [lst.append(x)], in place. *)
Definition list_append (lst : loc) (x : loc) : M unit :=
  items ← read_list lst; write lst (OList (items ++ [x])).

(** [pd.concat(lst)] on a list object of frames: a new frame object. *)
Definition df_concat (lst : loc) : M loc :=
  items ← read_list lst;
  frames ← mapM_M read_frame items;
  rows ← lift (pd_concat frames);
  alloc (ODataFrame rows).

(** ** Grouping *)

(** [a == b] on cells: a missing value equals nothing, not even itself. *)
Definition cell_eqb (a b : value) : bool :=
  match a, b with
  | VNaN, _ | _, VNaN => false
  | _, _ => bool_decide (a = b)
  end.

(** [df[df[col] == v]]: boolean-mask selection, the rows keep their order. *)
Definition select_eq (df : DataFrame) (col : string) (v : value) : DataFrame :=
  filter (λ r : row, cell_eqb (default VNaN (r !! col)) v) df.

(** The order in which group keys are sorted: integers and instants
    numerically, strings by code point; between cells of different kinds the
    order is fixed by kind (pandas makes no promise there). *)
Definition value_rank (v : value) : Z :=
  match v with VNaN => 0 | VInt _ => 1 | VTimestamp _ => 2 | VStr _ => 3 end.

Definition value_leb (a b : value) : bool :=
  match a, b with
  | VInt x, VInt y => x <=? y
  | VTimestamp x, VTimestamp y => x <=? y
  | VStr s, VStr t => String.leb s t
  | _, _ => value_rank a <=? value_rank b
  end.

Definition value_le (a b : value) : Prop := value_leb a b.

#[global] Instance value_le_dec : RelDecision value_le.
Proof. intros a b. unfold value_le. apply _. Defined.

(** The keys of [df.groupby(col)]: the distinct non-missing cells of the
    column, sorted. *)
Definition group_keys (df : DataFrame) (col : string) : list value :=
  merge_sort value_le (remove_dups (filter (λ v, v ≠ VNaN) (getitem df col))).

(** Iterating over [df.groupby(col)]: one (key, sub-frame) pair per key; the
    rows of a group keep the order they have in [df]. *)
Definition groupby (df : DataFrame) (col : string) : list (value * DataFrame) :=
  (λ k, (k, select_eq df col k)) <$> group_keys df col.

(** * The notebook cells *)

Definition timestamp_column : string := "dteday".
Definition target_columns : list string := ["casual"; "registered"].
Definition id_column : string := "id".

(** First entry of [target_columns], the only one that is plotted. *)
Definition target_column_0 : string := default "" (head target_columns).

(** ** Reading the data

    [read_csv] itself is pandas; the cell starts from the table it returns,
    with the date column parsed ([parse_dates]) and empty fields as NaN. *)
Definition series_add (dates : Series) (td : list (option Z)) : res Series :=
  series_apply (λ p, add_timedelta p.1 p.2) (zip dates td).

Definition cell_13 (csv : DataFrame) : M loc :=
  input_df ← alloc (ODataFrame csv);
  (* Fix missing hours in original dataset date column *)
  dates ← df_getitem input_df timestamp_column;
  hr ← df_getitem input_df "hr";
  td ← lift (series_apply Timedelta_hr hr);
  repaired ← lift (series_add dates td);
  df_setitem_series input_df timestamp_column repaired;;
  dates ← df_getitem input_df timestamp_column;
  iso ← lift (series_apply isoformat_cell dates);
  df_setitem_series input_df timestamp_column iso;;
  mret input_df.

(** ** Creating the dataset for the request *)

(** The [for i in start_index] loop; [input_data] and [ground_truth_data]
    are the two Python lists it fills. *)
Definition window_loop_body (input_df input_data ground_truth_data : loc)
    (context_length prediction_length : Z) (i : Z) : M unit :=
  view ← df_iloc input_df i (i + context_length);
  df ← df_copy view;
  df_setitem_scalar df id_column (VStr (id_fstring i));;
  list_append input_data df;;
  view ← df_iloc input_df (i + context_length) (i + context_length + prediction_length);
  df ← df_copy view;
  df_setitem_scalar df id_column (VStr (id_fstring i));;
  list_append ground_truth_data df.

Definition window_loop (input_df : loc) (start_index : list Z)
    (context_length prediction_length : Z) : M (loc * loc) :=
  input_data ← alloc (OList []);
  ground_truth_data ← alloc (OList []);
  for_each start_index
    (window_loop_body input_df input_data ground_truth_data
       context_length prediction_length);;
  mret (input_data, ground_truth_data).

(** The whole cell: the loop, then both lists concatenated into one table
    each. *)
Definition cell_15 (input_df : loc) (start_index : list Z)
    (context_length prediction_length : Z) : M (loc * loc) :=
  lists ← window_loop input_df start_index context_length prediction_length;
  input_data ← df_concat lists.1;
  ground_truth_data ← df_concat lists.2;
  mret (input_data, ground_truth_data).

(** ** Putting ground truth and forecast side by side

    What the plotting loop hands to the two [plot] calls and to [set_title]
    for one group.  Drawing itself (matplotlib, [pd.to_datetime] on the
    timestamps) is outside the model. *)
Record aligned := {
  title : value;
  gt_dt : Series;
  gt_val : Series;
  pred : DataFrame;
}.

Definition cell_21_body (ground_truth_data df_out : DataFrame) (history : Z)
    (g : value * DataFrame) : res aligned :=
  let '(grp_name, grp) := g in
  let gt := select_eq ground_truth_data id_column grp_name in
  gt_dt ← pd_concat [iloc_from (getitem grp timestamp_column) (- history);
                     getitem gt timestamp_column];
  gt_val ← pd_concat [iloc_from (getitem grp target_column_0) (- history);
                      getitem gt target_column_0];
  let pred := select_eq df_out id_column grp_name in
  mret {| title := grp_name; gt_dt := gt_dt; gt_val := gt_val; pred := pred |}.

Definition cell_21 (input_data ground_truth_data df_out : DataFrame)
    (history : Z) : res (list aligned) :=
  let grps := groupby input_data id_column in
  series_apply (cell_21_body ground_truth_data df_out history) grps.

(** ** Building the forecast table

    Plain Python indexing raises [KeyError] and [IndexError]; they are kept
    apart from the exceptions above. *)
Inductive py_exn :=
  | Exn (e : exn)
  | KeyError (key : string)
  | IndexError.

Definition pyres (A : Type) : Type := py_exn + A.

#[global] Instance pyres_ret : MRet pyres := λ A x, inr x.
#[global] Instance pyres_bind : MBind pyres := λ A B f m,
  match m with inl e => inl e | inr x => f x end.

Definition of_res {A} (r : res A) : pyres A :=
  match r with inl e => inl (Exn e) | inr x => inr x end.

(** [d[key]] on a dict. *)
Definition dict_getitem {V} (d : gmap string V) (key : string) : pyres V :=
  match d !! key with Some v => inr v | None => inl (KeyError key) end.

(** [l[i]] on a list, for an index [i >= 0]. *)
Definition list_getitem {V} (l : list V) (i : nat) : pyres V :=
  match l !! i with Some v => inr v | None => inl IndexError end.

(** [pd.DataFrame(data, columns=columns)] for a dict of lists: the frame has
    the named columns only; a named column that the dict lacks is all NaN;
    the lists of the named columns must agree in length. *)
Definition DataFrame_of_dict (data : gmap string Series) (columns : list string)
    : res DataFrame :=
  match omap (λ c, data !! c) columns with
  | [] => inr []
  | s :: rest =>
      if bool_decide (Forall (λ s' : Series, length s' = length s) rest)
      then inr ((λ k : nat,
                   list_to_map ((λ c, (c, default VNaN (data !! c ≫= (.!! k))))
                                <$> columns))
                <$> seq 0 (length s))
      else inl ValueError
  end.

(** The cell after the forecast call; [results] is what
    [ts_model.forecast] returned. *)
Definition cell_20 (results : gmap string (list (gmap string Series)))
    : pyres DataFrame :=
  responses ← dict_getitem results "results";
  data ← list_getitem responses 0;
  of_res (DataFrame_of_dict data ([id_column; timestamp_column] ++ target_columns)).

(** ** The figure of the plotting cell

    [plt.subplots(nrows, 1)] refuses zero rows, returns one bare Axes for one
    row and an array of Axes otherwise; only an array can be indexed. *)
Inductive axes :=
  | OneAxes
  | AxesArray (n : nat).

Definition plt_subplots (nrows : nat) : pyres axes :=
  match nrows with
  | O => inl (Exn ValueError)
  | 1%nat => inr OneAxes
  | _ => inr (AxesArray nrows)
  end.

(** [axs[i]]: the position of the Axes that is drawn on. *)
Definition axs_getitem (axs : axes) (i : nat) : pyres nat :=
  match axs with
  | OneAxes => inl (Exn TypeError)
  | AxesArray n => if bool_decide (i < n)%nat then inr i else inl IndexError
  end.

(** A group as drawn: the Axes it went to and what was plotted there. *)
Record drawing := {
  on_axes : nat;
  drawn : aligned;
}.

(** [for i, g in enumerate(grps)], counting from [i]. *)
Fixpoint for_enumerate {A B} (body : nat → A → pyres B) (i : nat) (l : list A)
    : pyres (list B) :=
  match l with
  | [] => inr []
  | x :: l' => y ← body i x; ys ← for_enumerate body (S i) l'; mret (y :: ys)
  end.

(** The plotting cell with its figure.  The calls on an Axes ([plot],
    [legend], [set_title]) and [pd.to_datetime] are taken to succeed. *)
Definition cell_21_figure_body (axs : axes)
    (ground_truth_data df_out : DataFrame) (history : Z)
    (i : nat) (g : value * DataFrame) : pyres drawing :=
  let '(grp_name, grp) := g in
  let gt := select_eq ground_truth_data id_column grp_name in
  gt_dt ← of_res (pd_concat [iloc_from (getitem grp timestamp_column) (- history);
                             getitem gt timestamp_column]);
  gt_val ← of_res (pd_concat [iloc_from (getitem grp target_column_0) (- history);
                              getitem gt target_column_0]);
  ax ← axs_getitem axs i;
  let pred := select_eq df_out id_column grp_name in
  mret {| on_axes := ax;
          drawn := {| title := grp_name; gt_dt := gt_dt; gt_val := gt_val;
                      pred := pred |} |}.

Definition cell_21_figure (input_data ground_truth_data df_out : DataFrame)
    (history : Z) : pyres (list drawing) :=
  let grps := groupby input_data id_column in
  let num_plots := length grps in
  axs ← plt_subplots num_plots;
  for_enumerate (cell_21_figure_body axs ground_truth_data df_out history) 0 grps.

(** ** Loading and windowing in sequence *)


(** * Vocabulary of the statements *)

(** [wp m σ Q]: run from [σ], the computation [m] returns (it does not raise)
    and its result and final store satisfy [Q]. *)
Definition wp {A} (m : M A) (σ : store) (Q : A → store → Prop) : Prop :=
  match m σ with
  | Returned a σ' => Q a σ'
  | Raised _ _ => False
  end.

(** The frames stored at the locations [ls], in order. *)
Definition frames_at (σ : store) (ls : list loc) (dfs : list DataFrame) : Prop :=
  Forall2 (λ l df, σ !! l = Some (ODataFrame df)) ls dfs.

(** What one pass of the loop leaves in the frame it appends to
    [input_data], respectively [ground_truth_data]. *)
Definition context_window (series : DataFrame) (context_length i : Z) : DataFrame :=
  setitem_scalar (iloc series i (i + context_length))
    id_column (VStr (id_fstring i)).

Definition future_window (series : DataFrame)
    (context_length prediction_length i : Z) : DataFrame :=
  setitem_scalar
    (iloc series (i + context_length) (i + context_length + prediction_length))
    id_column (VStr (id_fstring i)).

(** State between two passes of the window loop, over the store [σ0] in
    which neither list exists yet: nothing of [σ0] has changed, and the two
    lists hold one frame per visited offset. *)
Definition loop_inv (input_df : loc) (series : DataFrame)
    (context_length prediction_length : Z)
    (σ0 : store) (input_data ground_truth_data : loc)
    (visited : list Z) (σ : store) : Prop :=
  σ0 ⊆ σ ∧ σ !! input_df = Some (ODataFrame series) ∧
  ∃ xs ys, σ !! input_data = Some (OList xs) ∧
           σ !! ground_truth_data = Some (OList ys) ∧
           frames_at σ xs (context_window series context_length <$> visited) ∧
           frames_at σ ys
             (future_window series context_length prediction_length <$> visited).

(** The constraint the specification puts on a start offset. *)
Definition valid_offset (series : DataFrame)
    (context_length prediction_length o : Z) : Prop :=
  0 ≤ o ∧ o + context_length + prediction_length ≤ Z.of_nat (length series).

(** The specification's reading of a slice [series[a : b]]: the [b - a] rows
    that start at position [a]. *)
Definition rows_between (series : DataFrame) (a b : nat) : DataFrame :=
  take (b - a) (drop a series).

(** A row tagged with an identifier. *)
Definition tagged (ident : string) (r : row) : row :=
  <[id_column := VStr ident]> r.

(** Number of positions of the interval [a, b) that lie inside a list of
    length [n]. *)
Definition in_bounds_length (n a b : Z) : Z :=
  Z.max 0 (Z.min b n - Z.max a 0).

(** Twenty thousand hourly rows starting 2011-01-01T00:00:00, for the
    scenarios of the specification. *)
Definition series_20000 : DataFrame :=
  (λ k : Z, {[ timestamp_column := VStr (isoformat (1293840000 * ns_per_second + k * ns_per_hour));
               "hr" := VInt (k mod 24);
               "casual" := VInt (k mod 7);
               "registered" := VInt (k mod 11) ]}) <$> seqZ 0 20000.

(** Two outcomes of the window cell hold the same thing: the same exception,
    or tables with the same rows (each read in its own final store). *)
Definition same_tables (o1 o2 : outcome (loc * loc)) : Prop :=
  match o1, o2 with
  | Returned r1 σ1, Returned r2 σ2 =>
      (∃ df, σ1 !! r1.1 = Some (ODataFrame df) ∧ σ2 !! r2.1 = Some (ODataFrame df)) ∧
      (∃ df, σ1 !! r1.2 = Some (ODataFrame df) ∧ σ2 !! r2.2 = Some (ODataFrame df))
  | Raised e1 _, Raised e2 _ => e1 = e2
  | _, _ => False
  end.

(** A store that holds nothing but that series, as [input_df]. *)
Definition store_20000 : store := {[ 1%positive := ODataFrame series_20000 ]}.

(** What the loading cell does to the timestamp of one row: the hour cell
    as a timedelta, added to the date cell, rendered as ISO 8601. *)
Definition repaired_timestamp (r : row) : res value :=
  td ← Timedelta_hr (default VNaN (r !! "hr"));
  t ← add_timedelta (default VNaN (r !! timestamp_column)) td;
  isoformat_cell t.

(** The row can be loaded: none of the three steps raises on it. *)
Definition loadable (r : row) : bool :=
  match repaired_timestamp r with inr _ => true | inl _ => false end.

(** A two-row table as [read_csv] returns it when the second data row has an
    empty [casual] field. *)
Definition csv_with_gap : DataFrame :=
  [ {[ timestamp_column := VTimestamp (14975 * ns_per_day); "hr" := VInt 0;
       "casual" := VInt 3; "registered" := VInt 13 ]};
    {[ timestamp_column := VTimestamp (14975 * ns_per_day); "hr" := VInt 1;
       "casual" := VNaN; "registered" := VInt 32 ]} ].

(** What the plotting loop computes for the group with key [k]. *)
Definition plotted (input_data ground_truth_data df_out : DataFrame)
    (history : Z) (k : value) : aligned :=
  let grp := select_eq input_data id_column k in
  let gt := select_eq ground_truth_data id_column k in
  {| title := k;
     gt_dt := iloc_from (getitem grp timestamp_column) (- history)
              ++ getitem gt timestamp_column;
     gt_val := iloc_from (getitem grp target_column_0) (- history)
               ++ getitem gt target_column_0;
     pred := select_eq df_out id_column k |}.

(** A column of timestamps in ascending order.  The cells are ISO 8601
    strings of one shape, which sort as the instants they denote. *)
Definition ascending (s : Series) : Prop := Sorted value_le s.


(** Small tables for the plotting cell: context windows of two rows for the
    identifiers [id_0] and [id_5], their three-row future windows, and three
    forecast tables: one on the future timestamps of both identifiers, one
    with the rows of [id_0] out of order, and one that leaves [id_5] out and
    gives [id_0] timestamps of the following day. *)
Definition hourly_row (ident ts : string) (casual : Z) : row :=
  {[ id_column := VStr ident; timestamp_column := VStr ts;
     "casual" := VInt casual; "registered" := VInt 0 ]}.

Definition context_example : DataFrame :=
  [ hourly_row "id_0" "2011-01-01T00:00:00" 16;
    hourly_row "id_0" "2011-01-01T01:00:00" 40;
    hourly_row "id_5" "2011-01-01T05:00:00" 1;
    hourly_row "id_5" "2011-01-01T06:00:00" 2 ].

Definition future_example : DataFrame :=
  [ hourly_row "id_0" "2011-01-01T02:00:00" 32;
    hourly_row "id_0" "2011-01-01T03:00:00" 13;
    hourly_row "id_0" "2011-01-01T04:00:00" 1;
    hourly_row "id_5" "2011-01-01T07:00:00" 3;
    hourly_row "id_5" "2011-01-01T08:00:00" 8;
    hourly_row "id_5" "2011-01-01T09:00:00" 14 ].

Definition forecast_example : DataFrame :=
  [ hourly_row "id_0" "2011-01-01T02:00:00" 30;
    hourly_row "id_0" "2011-01-01T03:00:00" 15;
    hourly_row "id_0" "2011-01-01T04:00:00" 4;
    hourly_row "id_5" "2011-01-01T07:00:00" 2;
    hourly_row "id_5" "2011-01-01T08:00:00" 9;
    hourly_row "id_5" "2011-01-01T09:00:00" 12 ].



(** Two responses of the forecasting service: one with two forecast rows
    and a field that is not a column of the table, one in which the
    [casual] list is shorter than the others. *)
Definition response_data_example : gmap string Series :=
  {[ "id" := [VStr "id_0"; VStr "id_0"];
     "dteday" := [VStr "2011-01-01T02:00:00"; VStr "2011-01-01T03:00:00"];
     "casual" := [VInt 30; VInt 15];
     "registered" := [VInt 1; VInt 2];
     "quantile" := [VInt 5] ]}.

Definition response_example : gmap string (list (gmap string Series)) :=
  {[ "results" := [response_data_example] ]}.

Definition response_data_uneven : gmap string Series :=
  {[ "id" := [VStr "id_0"; VStr "id_0"];
     "dteday" := [VStr "2011-01-01T02:00:00"; VStr "2011-01-01T03:00:00"];
     "casual" := [VInt 30];
     "registered" := [VInt 1; VInt 2] ]}.

Definition response_uneven : gmap string (list (gmap string Series)) :=
  {[ "results" := [response_data_uneven] ]}.

(** * Reasoning about cells *)

(** ** Slices *)

Section slices.
Context {A : Type}.
Implicit Types l : list A.

Lemma slice_bound_in_range n i : 0 ≤ i → i ≤ n → slice_bound n i = i.
Proof. unfold slice_bound. intros. case_match; lia. Qed.

Lemma slice_bound_nonneg n i : 0 ≤ i → slice_bound n i = Z.min i n.
Proof. unfold slice_bound. intros. case_match; lia. Qed.

Lemma slice_bound_range n i : 0 ≤ n → 0 ≤ slice_bound n i ≤ n.
Proof. unfold slice_bound. intros. case_match; lia. Qed.

(** A slice within bounds is what [take] and [drop] cut out. *)
Lemma iloc_within l a b :
  0 ≤ a → a ≤ b → b ≤ Z.of_nat (length l) →
  iloc l a b = take (Z.to_nat (b - a)) (drop (Z.to_nat a) l).
Proof.
  intros. unfold iloc. by rewrite !slice_bound_in_range by lia.
Qed.

Lemma length_iloc_within l a b :
  0 ≤ a → a ≤ b → b ≤ Z.of_nat (length l) →
  Z.of_nat (length (iloc l a b)) = b - a.
Proof.
  intros. rewrite iloc_within, length_take, length_drop by done. lia.
Qed.

Lemma lookup_iloc_within l a b (k : nat) :
  0 ≤ a → a ≤ b → b ≤ Z.of_nat (length l) → Z.of_nat k < b - a →
  iloc l a b !! k = l !! (Z.to_nat a + k)%nat.
Proof.
  intros. rewrite iloc_within by done.
  rewrite lookup_take_lt by lia. by rewrite lookup_drop.
Qed.

(** With a non-negative start, a slice holds the part of [a, b) that lies
    inside the list. *)
Lemma length_iloc_nonneg l a b :
  0 ≤ a → a ≤ b →
  Z.of_nat (length (iloc l a b)) =
  Z.max 0 (Z.min b (Z.of_nat (length l)) - a).
Proof.
  intros. unfold iloc. rewrite !slice_bound_nonneg by lia.
  rewrite length_take, length_drop. lia.
Qed.

Lemma length_iloc_le l a b :
  0 ≤ a → a ≤ b → Z.of_nat (length (iloc l a b)) ≤ b - a.
Proof. intros. rewrite length_iloc_nonneg by done. lia. Qed.


(** [l[-0:]] is [l[0:]]: the whole list. *)
Lemma iloc_from_0 l : iloc_from l (- 0) = l.
Proof. unfold iloc_from, slice_bound. simpl. by rewrite Z.min_l by lia. Qed.
End slices.

Lemma length_setitem_scalar df col v : length (setitem_scalar df col v) = length df.
Proof. unfold setitem_scalar. by rewrite length_fmap. Qed.

(** ** Weakest preconditions of store computations *)

Lemma wp_returns {A} (m : M A) σ Q :
  wp m σ Q → ∃ a σ', m σ = Returned a σ' ∧ Q a σ'.
Proof. unfold wp. destruct (m σ); [eauto | done]. Qed.

Lemma wp_mono {A} (m : M A) σ (Q Q' : A → store → Prop) :
  (∀ a σ', Q a σ' → Q' a σ') → wp m σ Q → wp m σ Q'.
Proof. unfold wp. destruct (m σ); auto. Qed.

Lemma wp_ret {A} (x : A) σ (Q : A → store → Prop) : Q x σ → wp (mret x) σ Q.
Proof. done. Qed.

Lemma wp_bind {A B} (m : M A) (f : A → M B) σ Q :
  wp m σ (λ a σ', wp (f a) σ' Q) → wp (m ≫= f) σ Q.
Proof.
  unfold wp, mbind, M_bind. destruct (m σ); [done | done].
Qed.

Lemma wp_alloc o σ (Q : loc → store → Prop) :
  (∀ l, σ !! l = None → Q l (<[l := o]> σ)) → wp (alloc o) σ Q.
Proof.
  intros HQ. unfold wp, alloc. apply HQ.
  apply (not_elem_of_dom (D := gset loc)), is_fresh.
Qed.

Lemma wp_read_frame l df σ (Q : DataFrame → store → Prop) :
  σ !! l = Some (ODataFrame df) → Q df σ → wp (read_frame l) σ Q.
Proof. intros Hl HQ. unfold wp, read_frame. by rewrite Hl. Qed.

Lemma wp_read_list l items σ (Q : list loc → store → Prop) :
  σ !! l = Some (OList items) → Q items σ → wp (read_list l) σ Q.
Proof. intros Hl HQ. unfold wp, read_list. by rewrite Hl. Qed.

Lemma wp_write l o σ (Q : unit → store → Prop) :
  Q () (<[l := o]> σ) → wp (write l o) σ Q.
Proof. done. Qed.

Lemma wp_lift {A} (r : res A) x σ (Q : A → store → Prop) :
  r = inr x → Q x σ → wp (lift r) σ Q.
Proof. by intros ->. Qed.

Lemma wp_df_iloc df rows a b σ (Q : loc → store → Prop) :
  σ !! df = Some (ODataFrame rows) →
  (∀ l, σ !! l = None → Q l (<[l := ODataFrame (iloc rows a b)]> σ)) →
  wp (df_iloc df a b) σ Q.
Proof.
  intros Hdf HQ. apply wp_bind, (wp_read_frame _ rows); [done|].
  by apply wp_alloc.
Qed.

Lemma wp_df_copy df rows σ (Q : loc → store → Prop) :
  σ !! df = Some (ODataFrame rows) →
  (∀ l, σ !! l = None → Q l (<[l := ODataFrame rows]> σ)) →
  wp (df_copy df) σ Q.
Proof.
  intros Hdf HQ. apply wp_bind, (wp_read_frame _ rows); [done|].
  by apply wp_alloc.
Qed.

Lemma wp_df_setitem_scalar df rows col v σ (Q : unit → store → Prop) :
  σ !! df = Some (ODataFrame rows) →
  Q () (<[df := ODataFrame (setitem_scalar rows col v)]> σ) →
  wp (df_setitem_scalar df col v) σ Q.
Proof.
  intros Hdf HQ. apply wp_bind, (wp_read_frame _ rows); [done|].
  by apply wp_write.
Qed.



Lemma wp_list_append lst items x σ (Q : unit → store → Prop) :
  σ !! lst = Some (OList items) →
  Q () (<[lst := OList (items ++ [x])]> σ) →
  wp (list_append lst x) σ Q.
Proof.
  intros Hl HQ. apply wp_bind, (wp_read_list _ items); [done|].
  by apply wp_write.
Qed.

(** A loop is handled with an invariant over the elements already visited. *)
Lemma wp_for_each {A} (I : list A → store → Prop) (xs : list A)
    (body : A → M unit) σ (Q : unit → store → Prop) :
  I [] σ →
  (∀ visited x σ', I visited σ' → wp (body x) σ' (λ _ σ'', I (visited ++ [x]) σ'')) →
  (∀ σ', I xs σ' → Q () σ') →
  wp (for_each xs body) σ Q.
Proof.
  intros Hinit Hbody Hpost.
  assert (∀ rest visited σ', I visited σ' → xs = visited ++ rest →
            wp (for_each rest body) σ' Q) as Hgen.
  { induction rest as [|x rest IH]; intros visited σ' HI Hxs.
    - apply wp_ret, Hpost. rewrite app_nil_r in Hxs. by subst.
    - simpl. apply wp_bind.
      eapply wp_mono; [|by apply Hbody].
      intros [] σ'' HI'. apply (IH (visited ++ [x])); [done|].
      by rewrite <-app_assoc. }
  by apply (Hgen xs []).
Qed.

(** ** The window loop *)

Section window_loop.
Variables (input_df : loc) (series : DataFrame).
Variables (context_length prediction_length : Z).

Let ctx := context_window series context_length.
Let fut := future_window series context_length prediction_length.
Let loop_inv := loop_inv input_df series context_length prediction_length.

Lemma window_loop_body_inv σ0 input_data ground_truth_data visited i σ :
  σ0 !! input_data = None → σ0 !! ground_truth_data = None →
  input_data ≠ ground_truth_data →
  loop_inv σ0 input_data ground_truth_data visited σ →
  wp (window_loop_body input_df input_data ground_truth_data
        context_length prediction_length i) σ
     (λ _ σ', loop_inv σ0 input_data ground_truth_data (visited ++ [i]) σ').
Proof.
  intros Hin0 Hgt0 Hne (Hsub & Hdf & xs & ys & Hxs & Hys & Fxs & Fys).
  unfold window_loop_body.
  apply wp_bind, (wp_df_iloc _ series); [done|]. intros v1 Hv1.
  apply wp_bind, (wp_df_copy _ (iloc series i (i + context_length)));
    [by rewrite lookup_insert_eq|]. intros x Hx.
  apply lookup_insert_None in Hx as [Hx ?].
  apply wp_bind, (wp_df_setitem_scalar _ (iloc series i (i + context_length)));
    [by rewrite lookup_insert_eq|].
  rewrite insert_insert_eq.
  apply wp_bind, (wp_list_append _ xs).
  { rewrite !lookup_insert_ne by congruence. done. }
  apply wp_bind, (wp_df_iloc _ series).
  { rewrite !lookup_insert_ne by congruence. done. }
  intros v2 Hv2.
  apply lookup_insert_None in Hv2 as [Hv2 ?].
  apply lookup_insert_None in Hv2 as [Hv2 ?].
  apply lookup_insert_None in Hv2 as [Hv2 ?].
  apply wp_bind, (wp_df_copy _ (iloc series (i + context_length)
                                  (i + context_length + prediction_length)));
    [by rewrite lookup_insert_eq|]. intros y Hy.
  apply lookup_insert_None in Hy as [Hy ?].
  apply lookup_insert_None in Hy as [Hy ?].
  apply lookup_insert_None in Hy as [Hy ?].
  apply lookup_insert_None in Hy as [Hy ?].
  apply wp_bind, (wp_df_setitem_scalar _ (iloc series (i + context_length)
                                  (i + context_length + prediction_length)));
    [by rewrite lookup_insert_eq|].
  rewrite insert_insert_eq.
  apply (wp_list_append _ ys).
  { rewrite !lookup_insert_ne by congruence. done. }
  set (σ' := <[ground_truth_data := _]> _).
  assert (∀ l df, σ !! l = Some (ODataFrame df) → σ' !! l = Some (ODataFrame df))
    as Hkeep.
  { intros l df Hl. unfold σ'. rewrite !lookup_insert_ne by congruence. done. }
  split_and!.
  - unfold σ'. repeat (apply insert_subseteq_r;
      [first [done | eapply lookup_weaken_None; [|exact Hsub]; done]|]). done.
  - by apply Hkeep.
  - exists (xs ++ [x]), (ys ++ [y]). split_and!.
    + unfold σ'. rewrite !lookup_insert_ne by congruence.
      by rewrite lookup_insert_eq.
    + unfold σ'. by rewrite lookup_insert_eq.
    + rewrite fmap_app. apply Forall2_app.
      * eapply Forall2_impl; [exact Fxs|]. intros ??; apply Hkeep.
      * repeat constructor. unfold σ'.
        rewrite !lookup_insert_ne by congruence. by rewrite lookup_insert_eq.
    + rewrite fmap_app. apply Forall2_app.
      * eapply Forall2_impl; [exact Fys|]. intros ??; apply Hkeep.
      * repeat constructor. unfold σ'.
        rewrite !lookup_insert_ne by congruence. by rewrite lookup_insert_eq.
Qed.

Lemma wp_window_loop σ start_index :
  σ !! input_df = Some (ODataFrame series) →
  wp (window_loop input_df start_index context_length prediction_length) σ
     (λ r σ', loop_inv σ r.1 r.2 start_index σ').
Proof.
  intros Hdf. unfold window_loop.
  apply wp_bind, wp_alloc. intros input_data Hin.
  apply wp_bind, wp_alloc. intros ground_truth_data Hgt.
  apply lookup_insert_None in Hgt as [Hgt Hne].
  apply wp_bind.
  apply (wp_for_each (loop_inv σ input_data ground_truth_data)).
  - split; [|split].
    + by do 2 (apply insert_subseteq_r; [done|]).
    + rewrite !lookup_insert_ne by congruence. done.
    + exists [], []. split_and!; [|by rewrite lookup_insert_eq|constructor..].
      rewrite lookup_insert_ne by congruence. by rewrite lookup_insert_eq.
  - intros visited i σ' HI. by apply window_loop_body_inv.
  - intros σ' HI. by apply wp_ret.
Qed.

Lemma frames_at_insert_fresh σ l o ls dfs :
  σ !! l = None → frames_at σ ls dfs → frames_at (<[l := o]> σ) ls dfs.
Proof.
  intros Hl F. unfold frames_at. eapply Forall2_impl; [exact F|].
  intros k df Hk; simpl. rewrite lookup_insert_ne by congruence. done.
Qed.

Lemma wp_read_frames σ ls dfs (Q : list DataFrame → store → Prop) :
  frames_at σ ls dfs → Q dfs σ → wp (mapM_M read_frame ls) σ Q.
Proof.
  intros F. revert Q. induction F as [|l df ls dfs Hl F IH]; intros Q HQ.
  - by apply wp_ret.
  - simpl. apply wp_bind, (wp_read_frame _ df); [done|].
    apply wp_bind, IH. by apply wp_ret.
Qed.

Lemma wp_df_concat lst items dfs σ (Q : loc → store → Prop) :
  σ !! lst = Some (OList items) → frames_at σ items dfs → dfs ≠ [] →
  (∀ l, σ !! l = None → Q l (<[l := ODataFrame (concat dfs)]> σ)) →
  wp (df_concat lst) σ Q.
Proof.
  intros Hl F Hne HQ. unfold df_concat.
  apply wp_bind, (wp_read_list _ items); [done|].
  apply wp_bind, (wp_read_frames _ _ dfs); [done|].
  apply wp_bind, (wp_lift _ (concat dfs)); [by destruct dfs|].
  by apply wp_alloc.
Qed.

(** The whole cell, for at least one start offset: both tables exist
    afterwards, hold the windows in the order of the offsets, and nothing
    that was in the store before has changed. *)
Lemma wp_cell_15 σ start_index :
  σ !! input_df = Some (ODataFrame series) → start_index ≠ [] →
  wp (cell_15 input_df start_index context_length prediction_length) σ
     (λ r σ', σ ⊆ σ' ∧
              σ' !! r.1 = Some (ODataFrame (concat (ctx <$> start_index))) ∧
              σ' !! r.2 = Some (ODataFrame (concat (fut <$> start_index)))).
Proof.
  intros Hdf Hne. unfold cell_15.
  apply wp_bind. eapply wp_mono; [|by apply wp_window_loop].
  intros [input_data ground_truth_data] σ1
    (Hsub & _ & xs & ys & Hxs & Hys & Fxs & Fys); simpl in *.
  apply wp_bind, (wp_df_concat _ xs (ctx <$> start_index)); [done|done|..].
  { by destruct start_index. }
  intros a Ha.
  apply wp_bind, (wp_df_concat _ ys (fut <$> start_index)).
  { rewrite lookup_insert_ne by congruence. done. }
  { by apply frames_at_insert_fresh. }
  { by destruct start_index. }
  intros b Hb. apply lookup_insert_None in Hb as [Hb ?].
  apply wp_ret; simpl. split_and!.
  - do 2 (apply insert_subseteq_r;
      [eapply lookup_weaken_None; [|exact Hsub]; done|]). done.
  - rewrite lookup_insert_ne by congruence. by rewrite lookup_insert_eq.
  - by rewrite lookup_insert_eq.
Qed.
End window_loop.

(** ** Lengths and rows of the windows *)

Lemma length_context_window series cl o :
  0 ≤ o → 0 ≤ cl →
  Z.of_nat (length (context_window series cl o)) =
  in_bounds_length (Z.of_nat (length series)) o (o + cl).
Proof.
  intros. unfold context_window, in_bounds_length.
  rewrite length_setitem_scalar, length_iloc_nonneg by lia. lia.
Qed.

Lemma length_future_window series cl pl o :
  0 ≤ o → 0 ≤ cl → 0 ≤ pl →
  Z.of_nat (length (future_window series cl pl o)) =
  in_bounds_length (Z.of_nat (length series)) (o + cl) (o + cl + pl).
Proof.
  intros. unfold future_window, in_bounds_length.
  rewrite length_setitem_scalar, length_iloc_nonneg by lia. lia.
Qed.



(** [rows_between] is contiguous: its [k]-th row is row [a + k] of the
    series. *)
Lemma lookup_rows_between series a b k :
  (k < b - a)%nat → rows_between series a b !! k = series !! (a + k)%nat.
Proof.
  intros. unfold rows_between. rewrite lookup_take_lt by done.
  by rewrite lookup_drop.
Qed.

Lemma length_rows_between series a b :
  (a ≤ b)%nat → (b ≤ length series)%nat →
  length (rows_between series a b) = (b - a)%nat.
Proof.
  intros. unfold rows_between. rewrite length_take, length_drop. lia.
Qed.

Lemma concat_fmap_singleton {A B} (f : A → list B) (x : A) :
  concat (f <$> [x]) = f x.
Proof. simpl. apply app_nil_r. Qed.

Lemma length_series_20000 : length series_20000 = Z.to_nat 20000.
Proof. unfold series_20000. by rewrite length_fmap, length_seqZ. Qed.

(** * The window extraction cell *)

Section window_claims.
Variables (σ : store) (input_df : loc) (series : DataFrame).
Variables (start_index : list Z) (context_length prediction_length : Z).
Hypothesis Hdf : σ !! input_df = Some (ODataFrame series).

Let ctx := context_window series context_length.
Let fut := future_window series context_length prediction_length.

(** With no start offset at all the loop does nothing and [pd.concat]
    refuses the empty list. *)
Lemma cell_15_no_offsets σ0 :
  ∃ σ', cell_15 input_df [] context_length prediction_length σ0
        = Raised ValueError σ' ∧ σ0 ⊆ σ'.
Proof.
  set (a := fresh (dom σ0)).
  set (b := fresh (dom (<[a := OList []]> σ0))).
  assert (σ0 !! a = None) as Ha
    by apply (not_elem_of_dom (D := gset loc)), is_fresh.
  assert (<[a := OList []]> σ0 !! b = None) as Hb
    by apply (not_elem_of_dom (D := gset loc)), is_fresh.
  exists (<[b := OList []]> (<[a := OList []]> σ0)). split.
  - unfold cell_15, window_loop, df_concat, read_list, alloc,
      mbind, M_bind; simpl. fold a. fold b.
    apply lookup_insert_None in Hb as [_ Hne].
    rewrite lookup_insert_ne by done. by rewrite lookup_insert_eq.
  - apply insert_subseteq_r; [by apply lookup_insert_None in Hb as [? _]|].
    by apply insert_subseteq.
Qed.

(** C2. For every list of start offsets that all satisfy [0 <= o] and
    [o + context_length + prediction_length <= len(series)] (equality
    included), the loop returns two lists with exactly one frame per
    offset; every context frame has exactly [context_length] rows and every
    ground-truth frame exactly [prediction_length] rows. *)
Theorem one_full_window_pair_per_valid_offset :
  0 ≤ context_length → 0 ≤ prediction_length →
  Forall (valid_offset series context_length prediction_length) start_index →
  ∃ input_data ground_truth_data σ' xs ys cs fs,
    window_loop input_df start_index context_length prediction_length σ
      = Returned (input_data, ground_truth_data) σ' ∧
    σ' !! input_data = Some (OList xs) ∧
    σ' !! ground_truth_data = Some (OList ys) ∧
    frames_at σ' xs cs ∧ frames_at σ' ys fs ∧
    length cs = length start_index ∧ length fs = length start_index ∧
    Forall (λ w, Z.of_nat (length w) = context_length) cs ∧
    Forall (λ w, Z.of_nat (length w) = prediction_length) fs.
Proof.
  intros Hcl Hpl Hvalid.
  destruct (wp_returns _ _ _ (wp_window_loop input_df series context_length
    prediction_length σ start_index Hdf))
    as ([input_data ground_truth_data] & σ' & Hrun & _ & _ & xs & ys & Hxs & Hys & Fxs & Fys).
  exists input_data, ground_truth_data, σ', xs, ys,
    (ctx <$> start_index), (fut <$> start_index).
  split_and!; try done; try by rewrite length_fmap.
  - apply Forall_fmap. eapply Forall_impl; [exact Hvalid|].
    intros o [??]; simpl. unfold ctx, context_window.
    rewrite length_setitem_scalar, length_iloc_within by lia. lia.
  - apply Forall_fmap. eapply Forall_impl; [exact Hvalid|].
    intros o [??]; simpl. unfold fut, future_window.
    rewrite length_setitem_scalar, length_iloc_within by lia. lia.
Qed.


(** C9. Whatever the offsets and lengths, and whether the cell returns or
    raises, the frame [input_df] holds the same rows afterwards, and so
    does every other object that existed before the cell ran: the tag is
    written into fresh copies only. *)
Theorem extraction_leaves_the_series_unchanged :
  let σ' := final_store
    (cell_15 input_df start_index context_length prediction_length σ) in
  σ' !! input_df = Some (ODataFrame series) ∧ σ ⊆ σ'.
Proof.
  assert (σ ⊆ final_store
    (cell_15 input_df start_index context_length prediction_length σ)) as Hsub.
  { destruct (decide (start_index = [])) as [->|Hne].
    - destruct (cell_15_no_offsets σ) as (σ' & -> & Hsub). done.
    - destruct (wp_returns _ _ _ (wp_cell_15 input_df series context_length
        prediction_length σ start_index Hdf Hne)) as (r & σ' & -> & Hsub & _).
      done. }
  simpl. split; [|done]. by eapply lookup_weaken.
Qed.

(** C10. For non-negative start offsets (at least one) the cell returns:
    no offset makes it raise.  Each window holds exactly the rows of its
    slice that lie inside the series, so a slice that runs past the end is
    cut there and may be empty. *)
Theorem extraction_truncates_silently :
  0 ≤ context_length → 0 ≤ prediction_length → start_index ≠ [] →
  Forall (λ o, 0 ≤ o) start_index →
  ∃ input_data ground_truth_data σ',
    cell_15 input_df start_index context_length prediction_length σ
      = Returned (input_data, ground_truth_data) σ' ∧
    σ' !! input_data = Some (ODataFrame (concat (ctx <$> start_index))) ∧
    σ' !! ground_truth_data = Some (ODataFrame (concat (fut <$> start_index))) ∧
    Forall (λ o,
      Z.of_nat (length (ctx o)) =
        in_bounds_length (Z.of_nat (length series)) o (o + context_length) ∧
      Z.of_nat (length (fut o)) =
        in_bounds_length (Z.of_nat (length series)) (o + context_length)
          (o + context_length + prediction_length)) start_index.
Proof.
  intros Hcl Hpl Hne Hpos.
  destruct (wp_returns _ _ _ (wp_cell_15 input_df series context_length
    prediction_length σ start_index Hdf Hne))
    as ([input_data ground_truth_data] & σ' & Hrun & _ & Hin & Hgt).
  exists input_data, ground_truth_data, σ'. split_and!; try done.
  eapply Forall_impl; [exact Hpos|]. intros o Ho; simpl. split.
  - by apply length_context_window.
  - by apply length_future_window.
Qed.

(** C8. Running the extraction a second time, in the store the first run
    left behind, gives the same window set: after both runs the two pairs
    of lists hold frames with the same rows, offset by offset, and the two
    runs of the whole cell end alike (the same tables, or the same
    exception when there is no offset). *)
Theorem extraction_is_repeatable :
  ∃ r1 σ1 r2 σ2 xs1 ys1 xs2 ys2 cs fs,
    window_loop input_df start_index context_length prediction_length σ
      = Returned r1 σ1 ∧
    window_loop input_df start_index context_length prediction_length σ1
      = Returned r2 σ2 ∧
    σ2 !! r1.1 = Some (OList xs1) ∧ σ2 !! r2.1 = Some (OList xs2) ∧
    σ2 !! r1.2 = Some (OList ys1) ∧ σ2 !! r2.2 = Some (OList ys2) ∧
    frames_at σ2 xs1 cs ∧ frames_at σ2 xs2 cs ∧
    frames_at σ2 ys1 fs ∧ frames_at σ2 ys2 fs ∧
    length cs = length start_index ∧ length fs = length start_index ∧
    let o1 := cell_15 input_df start_index context_length prediction_length σ in
    same_tables o1
      (cell_15 input_df start_index context_length prediction_length
         (final_store o1)).
Proof.
  destruct (wp_returns _ _ _ (wp_window_loop input_df series context_length
    prediction_length σ start_index Hdf))
    as (r1 & σ1 & Hrun1 & _ & Hdf1 & xs1 & ys1 & Hxs1 & Hys1 & Fxs1 & Fys1).
  destruct (wp_returns _ _ _ (wp_window_loop input_df series context_length
    prediction_length σ1 start_index Hdf1))
    as (r2 & σ2 & Hrun2 & Hsub & _ & xs2 & ys2 & Hxs2 & Hys2 & Fxs2 & Fys2).
  exists r1, σ1, r2, σ2, xs1, ys1, xs2, ys2,
    (ctx <$> start_index), (fut <$> start_index).
  split_and!; try done; try by rewrite length_fmap.
  - by eapply lookup_weaken.
  - by eapply lookup_weaken.
  - eapply Forall2_impl; [exact Fxs1|]. intros l df Hl; simpl in *.
    eapply lookup_weaken; [exact Hl | exact Hsub].
  - eapply Forall2_impl; [exact Fys1|]. intros l df Hl; simpl in *.
    eapply lookup_weaken; [exact Hl | exact Hsub].
  - destruct (decide (start_index = [])) as [->|Hne]; simpl.
    + destruct (cell_15_no_offsets σ) as (σa & -> & Hsa); simpl.
      destruct (cell_15_no_offsets σa) as (σb & -> & _). done.
    + destruct (wp_returns _ _ _ (wp_cell_15 input_df series context_length
        prediction_length σ start_index Hdf Hne))
        as (ra & σa & -> & Hsa & Hina & Hgta); simpl.
      assert (σa !! input_df = Some (ODataFrame series)) as Hdfa.
      { eapply lookup_weaken; [exact Hdf | exact Hsa]. }
      destruct (wp_returns _ _ _ (wp_cell_15 input_df series context_length
        prediction_length σa start_index Hdfa Hne))
        as (rb & σb & -> & _ & Hinb & Hgtb); simpl.
      split; eauto.
Qed.
End window_claims.

Section out_of_range.
Variables (σ : store) (input_df : loc) (series : DataFrame).
Variables (start_index : list Z) (context_length prediction_length : Z).

Let ctx := context_window series context_length.
Let fut := future_window series context_length prediction_length.

(** C1, as the code has it.  No start offset makes the extraction fail,
    also not a negative one or one with
    [o + context_length + prediction_length > len(series)]: for at least
    one offset the cell returns the two tables and raises nothing.  An
    offset [o >= 0] whose windows run past the end gets the rows that are
    left: [max 0 (len(series) - o)] in the two windows together. *)
Theorem out_of_range_offsets_do_not_raise :
  σ !! input_df = Some (ODataFrame series) → start_index ≠ [] →
  (∃ input_data ground_truth_data σ',
     cell_15 input_df start_index context_length prediction_length σ
       = Returned (input_data, ground_truth_data) σ' ∧
     σ' !! input_data = Some (ODataFrame (concat (ctx <$> start_index))) ∧
     σ' !! ground_truth_data = Some (ODataFrame (concat (fut <$> start_index)))) ∧
  (∀ e σ',
     cell_15 input_df start_index context_length prediction_length σ
       ≠ Raised e σ') ∧
  Forall (λ o,
    0 ≤ o → 0 ≤ context_length → 0 ≤ prediction_length →
    Z.of_nat (length series) < o + context_length + prediction_length →
    Z.of_nat (length (ctx o)) + Z.of_nat (length (fut o))
      = Z.max 0 (Z.of_nat (length series) - o)) start_index.
Proof.
  intros Hdf Hne.
  destruct (wp_returns _ _ _ (wp_cell_15 input_df series context_length
    prediction_length σ start_index Hdf Hne))
    as ([input_data ground_truth_data] & σ' & Hrun & _ & Hin & Hgt).
  split_and!.
  - by exists input_data, ground_truth_data, σ'.
  - intros e σ''. by rewrite Hrun.
  - apply Forall_forall. intros o _ Ho Hcl Hpl Hlen. unfold ctx, fut.
    rewrite length_context_window, length_future_window by done.
    unfold in_bounds_length. lia.
Qed.
End out_of_range.

(** C1, as the specification has it, fails: on the 20000-row series with
    [context_length = 512] and [prediction_length = 20] the offset 19995 is
    out of range, yet the cell returns, with a context table of 5 rows and an
    empty ground-truth table; it does not raise [RangeError]. *)
Lemma offset_19995_returns_short_windows :
  Z.of_nat (length series_20000) < 19995 + 512 + 20 ∧
  (∃ input_data ground_truth_data σ' c f,
     cell_15 1%positive [19995] 512 20 store_20000
       = Returned (input_data, ground_truth_data) σ' ∧
     σ' !! input_data = Some (ODataFrame c) ∧
     σ' !! ground_truth_data = Some (ODataFrame f) ∧
     length c = 5%nat ∧ length f = 0%nat) ∧
  ∀ σ', cell_15 1%positive [19995] 512 20 store_20000
          ≠ Raised (RangeError 19995) σ'.
Proof.
  assert (store_20000 !! 1%positive = Some (ODataFrame series_20000)) as Hdf
    by apply lookup_singleton_eq.
  destruct (wp_returns _ _ _ (wp_cell_15 1%positive series_20000 512 20
    store_20000 [19995] Hdf ltac:(done)))
    as ([input_data ground_truth_data] & σ' & Hrun & _ & Hin & Hgt).
  rewrite concat_fmap_singleton in Hin, Hgt.
  split_and!.
  - rewrite length_series_20000. lia.
  - exists input_data, ground_truth_data, σ'. do 2 eexists.
    split_and!; [done..| |].
    + apply Nat2Z.inj. rewrite length_context_window by lia.
      rewrite length_series_20000. reflexivity.
    + apply Nat2Z.inj. rewrite length_future_window by lia.
      rewrite length_series_20000. reflexivity.
  - intros σ''. by rewrite Hrun.
Qed.

(** ** The scenarios of the specification as instances *)

Lemma store_20000_input_df :
  store_20000 !! 1%positive = Some (ODataFrame series_20000).
Proof. apply lookup_singleton_eq. Defined.

Ltac offsets_20000 :=
  repeat first [apply Forall_nil_2 | apply Forall_cons_2];
  unfold valid_offset; rewrite ?length_series_20000; lia.

(** Offsets 2173 and 10635 of the scenario, and 19468, the last offset whose
    windows still fit ([19468 + 512 + 20 = 20000]). *)
Lemma one_full_window_pair_per_valid_offset_witness :
  Forall (valid_offset series_20000 512 20) [2173; 10635; 19468] ∧
  ∃ input_data ground_truth_data σ' xs ys cs fs,
    window_loop 1%positive [2173; 10635; 19468] 512 20 store_20000
      = Returned (input_data, ground_truth_data) σ' ∧
    σ' !! input_data = Some (OList xs) ∧
    σ' !! ground_truth_data = Some (OList ys) ∧
    frames_at σ' xs cs ∧ frames_at σ' ys fs ∧
    length cs = 3%nat ∧ length fs = 3%nat ∧
    Forall (λ w, Z.of_nat (length w) = 512) cs ∧
    Forall (λ w, Z.of_nat (length w) = 20) fs.
Proof.
  assert (Forall (valid_offset series_20000 512 20) [2173; 10635; 19468]) as Hv
    by offsets_20000.
  split; [exact Hv|].
  apply (one_full_window_pair_per_valid_offset store_20000 1%positive
           series_20000 [2173; 10635; 19468] 512 20 store_20000_input_df);
    [lia | lia | exact Hv].
Defined.


Lemma extraction_leaves_the_series_unchanged_witness :
  let σ' := final_store (cell_15 1%positive [2173; 10635] 512 20 store_20000) in
  σ' !! 1%positive = Some (ODataFrame series_20000) ∧ store_20000 ⊆ σ'.
Proof.
  exact (extraction_leaves_the_series_unchanged store_20000 1%positive
           series_20000 [2173; 10635] 512 20 store_20000_input_df).
Defined.

Lemma extraction_truncates_silently_witness :
  ∃ input_data ground_truth_data σ',
    cell_15 1%positive [19995; 30000] 512 20 store_20000
      = Returned (input_data, ground_truth_data) σ' ∧
    σ' !! input_data = Some (ODataFrame (concat (
      context_window series_20000 512 <$> [19995; 30000]))) ∧
    σ' !! ground_truth_data = Some (ODataFrame (concat (
      future_window series_20000 512 20 <$> [19995; 30000]))) ∧
    Forall (λ o,
      Z.of_nat (length (context_window series_20000 512 o)) =
        in_bounds_length (Z.of_nat (length series_20000)) o (o + 512) ∧
      Z.of_nat (length (future_window series_20000 512 20 o)) =
        in_bounds_length (Z.of_nat (length series_20000)) (o + 512)
          (o + 512 + 20)) [19995; 30000].
Proof.
  apply (extraction_truncates_silently store_20000 1%positive
           series_20000 [19995; 30000] 512 20 store_20000_input_df);
    [lia | lia | discriminate |].
  repeat first [apply Forall_nil_2 | apply Forall_cons_2]; lia.
Defined.

Lemma extraction_is_repeatable_witness :
  ∃ r1 σ1 r2 σ2 xs1 ys1 xs2 ys2 cs fs,
    window_loop 1%positive [2173; 10635] 512 20 store_20000 = Returned r1 σ1 ∧
    window_loop 1%positive [2173; 10635] 512 20 σ1 = Returned r2 σ2 ∧
    σ2 !! r1.1 = Some (OList xs1) ∧ σ2 !! r2.1 = Some (OList xs2) ∧
    σ2 !! r1.2 = Some (OList ys1) ∧ σ2 !! r2.2 = Some (OList ys2) ∧
    frames_at σ2 xs1 cs ∧ frames_at σ2 xs2 cs ∧
    frames_at σ2 ys1 fs ∧ frames_at σ2 ys2 fs ∧
    length cs = 2%nat ∧ length fs = 2%nat ∧
    let o1 := cell_15 1%positive [2173; 10635] 512 20 store_20000 in
    same_tables o1 (cell_15 1%positive [2173; 10635] 512 20 (final_store o1)).
Proof.
  exact (extraction_is_repeatable store_20000 1%positive
           series_20000 [2173; 10635] 512 20 store_20000_input_df).
Defined.

Lemma out_of_range_offsets_do_not_raise_witness :
  (∃ input_data ground_truth_data σ',
     cell_15 1%positive [19995; -3] 512 20 store_20000
       = Returned (input_data, ground_truth_data) σ' ∧
     σ' !! input_data = Some (ODataFrame (concat (
       context_window series_20000 512 <$> [19995; -3]))) ∧
     σ' !! ground_truth_data = Some (ODataFrame (concat (
       future_window series_20000 512 20 <$> [19995; -3])))) ∧
  (∀ e σ', cell_15 1%positive [19995; -3] 512 20 store_20000 ≠ Raised e σ').
Proof.
  destruct (out_of_range_offsets_do_not_raise store_20000 1%positive
              series_20000 [19995; -3] 512 20 store_20000_input_df
              ltac:(discriminate)) as (Hret & Hraise & _).
  exact (conj Hret Hraise).
Defined.

(** * The loading cell *)








(** A row with a parsed date and an integer hour can be loaded when the hour
    offset and the sum fit the nanosecond range. *)
Lemma loadable_date_hour (r : row) d h :
  r !! timestamp_column = Some (VTimestamp d) → r !! "hr" = Some (VInt h) →
  in_int64_ns (h * ns_per_hour) → in_int64_ns (d + h * ns_per_hour) →
  loadable r.
Proof.
  intros Hd Hh H1 H2. unfold loadable, repaired_timestamp.
  rewrite Hd, Hh; simpl.
  destruct (in_int64_ns (h * ns_per_hour)); [simpl|done].
  by destruct (in_int64_ns (d + h * ns_per_hour)).
Qed.


(** [civil_from_days] and [days_from_civil] agree on every day of 2011 and
    2012, the two years of the bike sharing data. *)
Example civil_days_round_trip_2011_2012 :
  Forall (λ k, let '(y, m, d) := civil_from_days (14975 + k) in
               days_from_civil y m d = 14975 + k ∧
               2011 ≤ y ≤ 2012 ∧ 1 ≤ m ≤ 12 ∧ 1 ≤ d ≤ 31)
    (seqZ 0 731).
Proof. apply (bool_decide_unpack _). vm_compute. reflexivity. Qed.

Example isoformat_new_year_2011 :
  isoformat (days_from_civil 2011 1 1 * ns_per_day + 5 * ns_per_hour)
  = "2011-01-01T05:00:00"%string.
Proof. vm_compute. reflexivity. Qed.

Example id_fstring_2173 : id_fstring 2173 = "id_2173"%string.
Proof. reflexivity. Qed.



(** The second row of [csv_with_gap] comes out as 2011-01-01T01:00:00. *)
Example cell_13_on_csv_with_gap :
  ∃ input_df σ',
    cell_13 csv_with_gap ∅ = Returned input_df σ' ∧
    (λ df, getitem df timestamp_column) <$> (σ' !! input_df ≫= λ o,
       match o with ODataFrame df => Some df | _ => None end)
    = Some [VStr "2011-01-01T00:00:00"; VStr "2011-01-01T01:00:00"].
Proof. do 2 eexists. split; vm_compute; reflexivity. Qed.

(** C5 does not hold of the code: the cell fills nothing.  On a table whose
    second row has no [casual] value the cell returns, and that cell of the
    loaded series is still missing. *)
Theorem null_target_survives_loading :
  ∃ input_df σ' loaded r,
    cell_13 csv_with_gap ∅ = Returned input_df σ' ∧
    σ' !! input_df = Some (ODataFrame loaded) ∧
    loaded !! 1%nat = Some r ∧
    r !! "casual" = Some VNaN.
Proof. do 4 eexists. split_and!; vm_compute; reflexivity. Qed.

(** * The plotting cell *)

Lemma series_apply_total {A B C} (f : B → res C) (h : A → B) (g : A → C)
    (l : list A) :
  (∀ x, f (h x) = inr (g x)) → series_apply f (h <$> l) = inr (g <$> l).
Proof.
  intros Hf. induction l as [|x l IH]; [done|].
  rewrite !fmap_cons. cbn [series_apply]. rewrite Hf, IH. done.
Qed.

(** The cell has no failing path: both [pd.concat] calls get two Series. *)
Lemma cell_21_returns input_data ground_truth_data df_out history :
  cell_21 input_data ground_truth_data df_out history
  = inr (plotted input_data ground_truth_data df_out history
           <$> group_keys input_data id_column).
Proof.
  unfold cell_21, groupby. apply series_apply_total.
  intros k. unfold cell_21_body, plotted, pd_concat; simpl.
  by rewrite !app_nil_r.
Qed.

Lemma elem_of_group_keys df col k :
  k ∈ group_keys df col ↔ k ≠ VNaN ∧ k ∈ getitem df col.
Proof.
  unfold group_keys. rewrite merge_sort_Permutation, elem_of_remove_dups.
  by rewrite list_elem_of_filter.
Qed.

Lemma NoDup_group_keys df col : NoDup (group_keys df col).
Proof.
  unfold group_keys. rewrite merge_sort_Permutation. apply NoDup_remove_dups.
Qed.


(** Every selected row carries the key. *)
Lemma select_eq_key df col k (r : row) :
  r ∈ select_eq df col k → r !! col = Some k ∧ k ≠ VNaN.
Proof.
  unfold select_eq. rewrite list_elem_of_filter. intros [Hr _].
  unfold cell_eqb in Hr. destruct (r !! col) as [v|]; simpl in Hr; [|done].
  destruct v, k; simpl in Hr; try done;
    apply bool_decide_unpack in Hr; by simplify_eq.
Qed.






Section plotting_claims.
Variables (input_data ground_truth_data df_out : DataFrame) (history : Z).


End plotting_claims.


Example alignment_scenario :
  ∃ a0 a5,
    cell_21 context_example future_example forecast_example 60 = inr [a0; a5] ∧
    title a0 = VStr "id_0" ∧
    gt_dt a0 = getitem (select_eq context_example id_column (VStr "id_0")) timestamp_column
               ++ getitem (select_eq future_example id_column (VStr "id_0")) timestamp_column ∧
    pred a0 = select_eq forecast_example id_column (VStr "id_0") ∧
    length (pred a0) = 3%nat ∧
    ascending (gt_dt a0) ∧ ascending (getitem (pred a0) timestamp_column).
Proof.
  do 2 eexists. split; [vm_compute; reflexivity|].
  split_and!; try (vm_compute; reflexivity);
    apply (bool_decide_unpack _); vm_compute; reflexivity.
Qed.

(** With [history = 0] the slice [iloc[-0:]] is the whole column, not an
    empty one: all context rows are plotted. *)
Example history_zero_plots_the_whole_context :
  ∃ a0 a5,
    cell_21 context_example future_example forecast_example 0 = inr [a0; a5] ∧
    gt_dt a0 = [VStr "2011-01-01T00:00:00"; VStr "2011-01-01T01:00:00";
                VStr "2011-01-01T02:00:00"; VStr "2011-01-01T03:00:00";
                VStr "2011-01-01T04:00:00"].
Proof. do 2 eexists. split; vm_compute; reflexivity. Qed.



(** * Further properties of the cells *)

(** ** Slices and windows *)

Lemma iloc_app {A} (l : list A) a b c :
  0 ≤ a → a ≤ b → b ≤ c → iloc l a b ++ iloc l b c = iloc l a c.
Proof.
  intros. unfold iloc. rewrite !slice_bound_nonneg by lia.
  set (n := Z.of_nat (length l)).
  replace (Z.to_nat (Z.min b n))
    with (Z.to_nat (Z.min a n) + Z.to_nat (Z.min b n - Z.min a n))%nat by lia.
  rewrite <-drop_drop, take_take_drop. f_equal. lia.
Qed.

Lemma iloc_infix {A} (l : list A) a b :
  ∃ before after, l = before ++ iloc l a b ++ after.
Proof.
  unfold iloc. set (i := Z.to_nat _). set (k := Z.to_nat _).
  exists (take k l), (drop i (drop k l)).
  by rewrite (take_drop i), (take_drop k).
Qed.

Lemma getitem_iloc df col a b :
  getitem (iloc df a b) col = iloc (getitem df col) a b.
Proof.
  unfold getitem, iloc. by rewrite fmap_take, fmap_drop, length_fmap.
Qed.

Lemma getitem_setitem_scalar_ne df col col' v :
  col ≠ col' → getitem (setitem_scalar df col v) col' = getitem df col'.
Proof.
  intros. unfold getitem, setitem_scalar. rewrite <-list_fmap_compose.
  apply list_fmap_ext. intros _ r _; unfold compose. by rewrite lookup_insert_ne.
Qed.

Lemma getitem_setitem_scalar df col v :
  getitem (setitem_scalar df col v) col = replicate (length df) v.
Proof.
  unfold getitem, setitem_scalar. rewrite <-list_fmap_compose.
  induction df as [|r df IH]; [done|]. simpl. rewrite lookup_insert_eq; simpl.
  by f_equal.
Qed.

(** X1. For a non-negative offset the context window followed by the future
    window is one slice of the series, [series[o : o+cl+pl]] with the tag:
    no row between the two windows is skipped or taken twice, also when the
    slice is cut at the end of the series. *)
Theorem context_then_future_is_one_slice series cl pl o :
  0 ≤ o → 0 ≤ cl → 0 ≤ pl →
  context_window series cl o ++ future_window series cl pl o
  = setitem_scalar (iloc series o (o + cl + pl)) id_column (VStr (id_fstring o)).
Proof.
  intros. unfold context_window, future_window, setitem_scalar.
  rewrite <-fmap_app, iloc_app by lia. done.
Qed.

Lemma context_then_future_is_one_slice_witness :
  context_window series_20000 512 19995 ++ future_window series_20000 512 20 19995
  = setitem_scalar (iloc series_20000 19995 (19995 + 512 + 20))
      id_column (VStr (id_fstring 19995)).
Proof.
  apply (context_then_future_is_one_slice series_20000 512 20 19995); lia.
Defined.

(** X2. Whatever the offset and the lengths (negative, past the end), the
    rows of a window are consecutive rows of the series in their order, each
    with the tag [id_<o>] written over its [id] cell: a window never holds a
    row that is not in the series and never reorders rows. *)
Theorem windows_are_runs_of_the_series series cl pl o :
  (∃ before rows after,
     series = before ++ rows ++ after ∧
     context_window series cl o = tagged (id_fstring o) <$> rows) ∧
  (∃ before rows after,
     series = before ++ rows ++ after ∧
     future_window series cl pl o = tagged (id_fstring o) <$> rows).
Proof.
  split.
  - destruct (iloc_infix series o (o + cl)) as (before & after & Hs).
    by exists before, (iloc series o (o + cl)), after.
  - destruct (iloc_infix series (o + cl) (o + cl + pl)) as (before & after & Hs).
    by exists before, (iloc series (o + cl) (o + cl + pl)), after.
Qed.

(** X3. A negative offset counts from the end of the series: when the whole
    range [o, o+cl+pl) is negative and [o >= -len(series)], the windows hold
    the rows that the offset [len(series) + o] would give, tagged with the
    negative number. *)
Theorem negative_offset_counts_from_the_end series cl pl o :
  0 ≤ cl → 0 ≤ pl → - Z.of_nat (length series) ≤ o → o + cl + pl < 0 →
  let n := Z.of_nat (length series) in
  context_window series cl o
    = tagged (id_fstring o) <$>
        rows_between series (Z.to_nat (n + o)) (Z.to_nat (n + o + cl)) ∧
  future_window series cl pl o
    = tagged (id_fstring o) <$>
        rows_between series (Z.to_nat (n + o + cl)) (Z.to_nat (n + o + cl + pl)).
Proof.
  intros Hcl Hpl Ho Hneg n.
  unfold context_window, future_window, setitem_scalar, rows_between, tagged, iloc.
  fold n. unfold slice_bound.
  repeat case_match; try lia.
  split; do 2 f_equal; first [f_equal; lia | lia].
Qed.

Lemma negative_offset_counts_from_the_end_witness :
  let n := Z.of_nat (length series_20000) in
  context_window series_20000 512 (-1000)
    = tagged (id_fstring (-1000)) <$>
        rows_between series_20000 (Z.to_nat (n + -1000)) (Z.to_nat (n + -1000 + 512)) ∧
  future_window series_20000 512 20 (-1000)
    = tagged (id_fstring (-1000)) <$>
        rows_between series_20000 (Z.to_nat (n + -1000 + 512))
          (Z.to_nat (n + -1000 + 512 + 20)).
Proof.
  apply (negative_offset_counts_from_the_end series_20000 512 20 (-1000));
    rewrite ?length_series_20000; lia.
Defined.

(** X4. Tagging touches the [id] column only: every other column of a window
    is the same slice of that column of the series, and the [id] column holds
    the tag in every row. *)
Theorem windows_keep_every_other_column series cl pl o col :
  col ≠ id_column →
  getitem (context_window series cl o) col = iloc (getitem series col) o (o + cl) ∧
  getitem (future_window series cl pl o) col
    = iloc (getitem series col) (o + cl) (o + cl + pl) ∧
  getitem (context_window series cl o) id_column
    = replicate (length (context_window series cl o)) (VStr (id_fstring o)) ∧
  getitem (future_window series cl pl o) id_column
    = replicate (length (future_window series cl pl o)) (VStr (id_fstring o)).
Proof.
  intros Hcol. unfold context_window, future_window.
  rewrite !getitem_setitem_scalar_ne, !getitem_iloc by done.
  by rewrite !getitem_setitem_scalar, !length_setitem_scalar.
Qed.

Lemma windows_keep_every_other_column_witness :
  getitem (context_window series_20000 512 2173) "casual"
    = iloc (getitem series_20000 "casual") 2173 (2173 + 512) ∧
  getitem (future_window series_20000 512 20 2173) "casual"
    = iloc (getitem series_20000 "casual") (2173 + 512) (2173 + 512 + 20) ∧
  getitem (context_window series_20000 512 2173) id_column
    = replicate (length (context_window series_20000 512 2173))
        (VStr (id_fstring 2173)) ∧
  getitem (future_window series_20000 512 20 2173) id_column
    = replicate (length (future_window series_20000 512 20 2173))
        (VStr (id_fstring 2173)).
Proof.
  apply (windows_keep_every_other_column series_20000 512 20 2173 "casual").
  discriminate.
Defined.

(** ** Identifiers and groups *)

Lemma id_fstring_inj o1 o2 : id_fstring o1 = id_fstring o2 → o1 = o2.
Proof.
  unfold id_fstring. intros H. apply (inj pretty).
  by simplify_eq/=.
Qed.

Lemma select_eq_concat (dfs : list DataFrame) col k :
  select_eq (concat dfs) col k = concat ((λ df, select_eq df col k) <$> dfs).
Proof.
  unfold select_eq. induction dfs as [|df dfs IH]; [done|].
  simpl. by rewrite filter_app, IH.
Qed.

Lemma select_eq_setitem_scalar df col (s t : string) :
  select_eq (setitem_scalar df col (VStr s)) col (VStr t)
  = if decide (s = t) then setitem_scalar df col (VStr s) else [].
Proof.
  unfold select_eq, setitem_scalar.
  induction df as [|r df IH]; [by case_decide|].
  rewrite fmap_cons, filter_cons, IH, lookup_insert_eq; simpl.
  unfold cell_eqb. destruct (decide (s = t)) as [->|Hne].
  - by rewrite bool_decide_true.
  - rewrite bool_decide_false; [done|]. by intros [= ?].
Qed.

Lemma concat_fmap_filter_eq {A B} `{EqDecision A} (f : A → list B) (x : A) l :
  concat ((λ y, if decide (y = x) then f y else []) <$> l)
  = concat (f <$> filter (λ y, y = x) l).
Proof.
  induction l as [|y l IH]; [done|].
  rewrite fmap_cons, filter_cons; simpl. case_decide; simpl; by rewrite IH.
Qed.

Lemma select_eq_windows series cl pl start_index o :
  select_eq (concat (context_window series cl <$> start_index))
    id_column (VStr (id_fstring o))
  = concat (context_window series cl <$> filter (λ o', o' = o) start_index) ∧
  select_eq (concat (future_window series cl pl <$> start_index))
    id_column (VStr (id_fstring o))
  = concat (future_window series cl pl <$> filter (λ o', o' = o) start_index).
Proof.
  rewrite !select_eq_concat, <-!list_fmap_compose.
  rewrite <-!concat_fmap_filter_eq. split; f_equal.
  - apply list_fmap_ext. intros _ o' _. unfold compose, context_window.
    rewrite select_eq_setitem_scalar.
    destruct (decide (o' = o)) as [->|Hne]; [by rewrite decide_True|].
    rewrite decide_False; [done|]. by intros ?%id_fstring_inj.
  - apply list_fmap_ext. intros _ o' _. unfold compose, future_window.
    rewrite select_eq_setitem_scalar.
    destruct (decide (o' = o)) as [->|Hne]; [by rewrite decide_True|].
    rewrite decide_False; [done|]. by intros ?%id_fstring_inj.
Qed.

(** X5. Selecting one identifier from the combined context table gives the
    windows of exactly the offsets equal to that number, in order: the one
    window when the offset occurs once, the window repeated when the offset
    is listed more than once, nothing when it is not listed.  The same holds
    for the ground-truth table. *)
Theorem rows_of_an_identifier_are_its_windows series cl pl start_index o :
  select_eq (concat (context_window series cl <$> start_index))
    id_column (VStr (id_fstring o))
  = concat (context_window series cl <$> filter (λ o', o' = o) start_index) ∧
  select_eq (concat (future_window series cl pl <$> start_index))
    id_column (VStr (id_fstring o))
  = concat (future_window series cl pl <$> filter (λ o', o' = o) start_index).
Proof. apply select_eq_windows. Qed.

(** A table with the offset 7 listed twice holds the window of 7 twice under
    the one identifier. *)
Example repeated_offset_repeats_the_window series cl :
  select_eq (concat (context_window series cl <$> [7; 3; 7]))
    id_column (VStr (id_fstring 7))
  = context_window series cl 7 ++ context_window series cl 7.
Proof.
  destruct (select_eq_windows series cl 0 [7; 3; 7] 7) as [-> _].
  simpl. by rewrite app_nil_r.
Qed.







#[local] Instance value_le_total : Total value_le.
Proof.
  intros a b. unfold value_le, value_leb.
  destruct a as [x|s| x|], b as [y|t|y|]; simpl;
    try (by left); try (by right).
  - destruct (Z.leb_spec x y), (Z.leb_spec y x); simpl; auto; lia.
  - destruct (String.leb_total s t) as [->| ->]; auto.
  - destruct (Z.leb_spec x y), (Z.leb_spec y x); simpl; auto; lia.
Qed.



Example notebook_offsets_plot_order :
  group_keys ((λ o, {[ id_column := VStr (id_fstring o) ]} : row)
              <$> [2173; 10635; 10935; 14239]) id_column
  = [VStr "id_10635"; VStr "id_10935"; VStr "id_14239"; VStr "id_2173"].
Proof. vm_compute. reflexivity. Qed.

Lemma filter_ext_elem_of {A} (P Q : A → Prop)
    `{!∀ x, Decision (P x)} `{!∀ x, Decision (Q x)} (l : list A) :
  (∀ x, x ∈ l → P x ↔ Q x) → filter P l = filter Q l.
Proof.
  induction l as [|x l IH]; intros Hext; [done|].
  rewrite !filter_cons.
  assert (filter P l = filter Q l) as ->
    by (apply IH; intros; apply Hext; by right).
  assert (P x ↔ Q x) as Hx by (apply Hext; by left).
  destruct (decide (P x)) as [HP|HP], (decide (Q x)) as [HQ|HQ];
    try done; tauto.
Qed.

Lemma filter_disjoint_app {A} (P Q : A → Prop)
    `{!∀ x, Decision (P x)} `{!∀ x, Decision (Q x)} (l : list A) :
  (∀ x, P x → Q x → False) →
  filter P l ++ filter Q l ≡ₚ filter (λ x, P x ∨ Q x) l.
Proof.
  intros Hdisj. induction l as [|x l IH]; [done|].
  rewrite !filter_cons.
  destruct (decide (P x)) as [HP|HP], (decide (Q x)) as [HQ|HQ].
  - destruct (Hdisj x HP HQ).
  - rewrite decide_True by auto. simpl. by rewrite IH.
  - rewrite decide_True by auto. rewrite <-Permutation_middle. by rewrite IH.
  - rewrite decide_False by tauto. done.
Qed.

Lemma select_eq_keys_Permutation df col ks :
  NoDup ks → VNaN ∉ ks →
  concat ((λ k, select_eq df col k) <$> ks)
  ≡ₚ filter (λ r : row, default VNaN (r !! col) ∈ ks) df.
Proof.
  induction 1 as [|k ks Hk Hnd IH]; intros Hnan.
  - simpl. symmetry. apply Permutation_nil_r.
    induction df as [|r df IHdf]; [done|].
    rewrite filter_cons, decide_False; [done|]. apply not_elem_of_nil.
  - apply not_elem_of_cons in Hnan as [Hne Hnan].
    rewrite fmap_cons; simpl. rewrite IH by done.
    assert (select_eq df col k
            = filter (λ r : row, default VNaN (r !! col) = k) df) as ->.
    { unfold select_eq. apply filter_ext_elem_of. intros r _.
      unfold cell_eqb. destruct (default VNaN (r !! col)), k; simpl;
        try done; try (split; [by intros ?%bool_decide_unpack
                              | by intros ?; apply bool_decide_pack]);
        split; done. }
    rewrite filter_disjoint_app by (by intros r -> ?).
    rewrite (filter_ext_elem_of _ (λ r : row, default VNaN (r !! col) ∈ k :: ks));
      [done|].
    intros r _. by rewrite elem_of_cons.
Qed.

Lemma select_eq_present df col k :
  k ≠ VNaN → k ∈ getitem df col → select_eq df col k ≠ [].
Proof.
  intros Hnan Hk. unfold getitem in Hk.
  apply list_elem_of_fmap in Hk as (r & -> & Hr).
  intros Hnil. apply (filter_nil_not_elem_of _ _ r) in Hnil; [done|].
  unfold cell_eqb. destruct (default VNaN (r !! col)); try done;
    by apply bool_decide_pack.
Qed.

(** X8. Grouping neither loses nor duplicates rows: the groups of
    [df.groupby(col)] taken together are the rows of [df] that have a value
    in that column, each row once; the keys are pairwise different, no group
    is empty, and a group holds rows of [df] in their order, all with the
    group's key. *)
Theorem groups_partition_the_rows df col :
  concat (snd <$> groupby df col)
    ≡ₚ filter (λ r : row, default VNaN (r !! col) ≠ VNaN) df ∧
  NoDup (fst <$> groupby df col) ∧
  ∀ k g, (k, g) ∈ groupby df col →
    g ≠ [] ∧ g `sublist_of` df ∧ ∀ r : row, r ∈ g → r !! col = Some k.
Proof.
  unfold groupby. rewrite <-!list_fmap_compose. split_and!.
  - change (snd ∘ _) with (λ k, select_eq df col k).
    rewrite select_eq_keys_Permutation.
    + rewrite (filter_ext_elem_of _ (λ r : row, default VNaN (r !! col) ≠ VNaN));
        [done|].
      intros r Hr. rewrite elem_of_group_keys. split; [by intros [? _]|].
      intros Hnan. split; [done|]. unfold getitem.
      by apply (list_elem_of_fmap_2 (λ r : row, default VNaN (r !! col))).
    + apply NoDup_group_keys.
    + by intros [? _]%elem_of_group_keys.
  - change (fst ∘ _) with (@id value). rewrite list_fmap_id.
    apply NoDup_group_keys.
  - intros k g Hg. apply list_elem_of_fmap in Hg as (k' & [= -> ->] & Hk).
    apply elem_of_group_keys in Hk as [Hnan Hk]. split_and!.
    + by apply select_eq_present.
    + apply sublist_filter.
    + intros r Hr. by apply select_eq_key in Hr as [? _].
Qed.



(** ** The figure *)

Lemma for_enumerate_axes_array n ground_truth_data df_out history input_data
    (ks : list value) (i : nat) :
  (i + length ks ≤ n)%nat →
  for_enumerate (cell_21_figure_body (AxesArray n) ground_truth_data df_out history)
    i ((λ k, (k, select_eq input_data id_column k)) <$> ks)
  = inr (zip_with (λ j a, {| on_axes := j; drawn := a |})
           (seq i (length ks))
           (plotted input_data ground_truth_data df_out history <$> ks)).
Proof.
  revert i. induction ks as [|k ks IH]; intros i Hi; [done|].
  simpl in Hi. rewrite !fmap_cons. cbn [for_enumerate length seq zip_with].
  rewrite IH by lia.
  unfold cell_21_figure_body, plotted, pd_concat, axs_getitem; simpl.
  rewrite bool_decide_true by lia. simpl. by rewrite !app_nil_r.
Qed.

(** X10. One start offset cannot be plotted: when the context table has
    exactly one identifier, [plt.subplots(1, 1)] hands back a bare Axes and
    the first [axs[i]] raises [TypeError]. *)
Theorem one_group_raises_TypeError input_data ground_truth_data df_out history :
  length (group_keys input_data id_column) = 1%nat →
  cell_21_figure input_data ground_truth_data df_out history
  = inl (Exn TypeError).
Proof.
  intros Hlen. unfold cell_21_figure, groupby.
  destruct (group_keys input_data id_column) as [|k [|??]]; simplify_eq/=.
  done.
Qed.

Lemma one_group_raises_TypeError_witness :
  cell_21_figure (select_eq context_example id_column (VStr "id_0"))
    future_example forecast_example 60
  = inl (Exn TypeError).
Proof.
  apply (one_group_raises_TypeError
           (select_eq context_example id_column (VStr "id_0"))
           future_example forecast_example 60).
  vm_compute. reflexivity.
Defined.

(** X11. Without any identifier in the context table (an empty table, for a
    window that lies wholly outside the series) the figure cannot be made:
    [plt.subplots(0, 1)] raises [ValueError]. *)
Theorem no_group_raises_ValueError input_data ground_truth_data df_out history :
  Forall (λ r : row, default VNaN (r !! id_column) = VNaN) input_data →
  cell_21_figure input_data ground_truth_data df_out history
  = inl (Exn ValueError).
Proof.
  intros Hall. unfold cell_21_figure, groupby.
  assert (group_keys input_data id_column = []) as ->; [|done].
  destruct (group_keys input_data id_column) as [|k ks] eqn:E; [done|].
  assert (k ∈ group_keys input_data id_column) as Hk by (rewrite E; by left).
  apply elem_of_group_keys in Hk as [Hnan Hk].
  unfold getitem in Hk. apply list_elem_of_fmap in Hk as (r & -> & Hr).
  rewrite Forall_forall in Hall. by destruct Hnan; apply Hall.
Qed.

Lemma no_group_raises_ValueError_witness :
  cell_21_figure (context_window series_20000 512 30000)
    (future_window series_20000 512 20 30000) forecast_example 60
  = inl (Exn ValueError).
Proof.
  apply (no_group_raises_ValueError (context_window series_20000 512 30000)
           (future_window series_20000 512 20 30000) forecast_example 60).
  assert (context_window series_20000 512 30000 = []) as ->; [|constructor].
  apply nil_length_inv, Nat2Z.inj.
  rewrite length_context_window, length_series_20000 by lia. reflexivity.
Defined.

(** X12. With two or more identifiers the figure has one Axes per group and
    the loop stays inside it: the groups are drawn on the Axes 0, 1, 2, ...
    in the order of the sorted identifiers, each showing what the plotting
    loop computes for it. *)
Theorem groups_are_drawn_on_consecutive_axes
    input_data ground_truth_data df_out history :
  (2 ≤ length (group_keys input_data id_column))%nat →
  ∃ out,
    cell_21 input_data ground_truth_data df_out history = inr out ∧
    cell_21_figure input_data ground_truth_data df_out history
    = inr (zip_with (λ j a, {| on_axes := j; drawn := a |})
             (seq 0 (length out)) out).
Proof.
  intros Hlen. eexists. split; [apply cell_21_returns|].
  unfold cell_21_figure, groupby. rewrite !length_fmap.
  destruct (length (group_keys input_data id_column)) as [|[|n]] eqn:E;
    [lia..|].
  unfold plt_subplots. cbn [mbind pyres_bind].
  rewrite for_enumerate_axes_array by lia. by rewrite E.
Qed.

Lemma groups_are_drawn_on_consecutive_axes_witness :
  ∃ out,
    cell_21 context_example future_example forecast_example 60 = inr out ∧
    cell_21_figure context_example future_example forecast_example 60
    = inr (zip_with (λ j a, {| on_axes := j; drawn := a |})
             (seq 0 (length out)) out).
Proof.
  apply (groups_are_drawn_on_consecutive_axes
           context_example future_example forecast_example 60).
  vm_compute. lia.
Defined.

(** ** The forecast table *)

Lemma fmap_lookup_seq {A} (d : A) (s : list A) :
  (λ k, default d (s !! k)) <$> seq 0 (length s) = s.
Proof.
  apply list_eq. intros i. rewrite list_lookup_fmap.
  destruct (decide (i < length s)%nat) as [Hi|Hi].
  - rewrite lookup_seq_lt by done. simpl.
    destruct (lookup_lt_is_Some_2 s i Hi) as [x Hx]. by rewrite Hx.
  - rewrite lookup_seq_ge by lia. by rewrite lookup_ge_None_2 by lia.
Qed.

Lemma elem_of_omap_lookup (data : gmap string Series) (columns : list string)
    (s : Series) :
  s ∈ omap (λ c, data !! c) columns ↔ ∃ c, c ∈ columns ∧ data !! c = Some s.
Proof. apply list_elem_of_omap. Qed.

Lemma DataFrame_of_dict_rows (data : gmap string Series) columns n :
  NoDup columns →
  (∃ c, c ∈ columns ∧ is_Some (data !! c)) →
  (∀ c s, c ∈ columns → data !! c = Some s → length s = n) →
  ∃ df,
    DataFrame_of_dict data columns = inr df ∧ length df = n ∧
    (∀ c s, c ∈ columns → data !! c = Some s → getitem df c = s) ∧
    (∀ c, c ∈ columns → data !! c = None → getitem df c = replicate n VNaN) ∧
    (∀ (r : row) c, r ∈ df → c ∉ columns → r !! c = None).
Proof.
  intros Hnd (c0 & Hc0 & [s0 Hs0]) Hlen. unfold DataFrame_of_dict.
  assert (Forall (λ s : Series, length s = n) (omap (λ c, data !! c) columns))
    as Hall.
  { apply Forall_forall. intros s (c & Hc & Hs)%elem_of_omap_lookup. eauto. }
  assert (s0 ∈ omap (λ c, data !! c) columns) as Hin
    by (apply elem_of_omap_lookup; eauto).
  destruct (omap (λ c, data !! c) columns) as [|s rest]; [by apply elem_of_nil in Hin|].
  apply Forall_cons in Hall as [Hs Hrest].
  rewrite bool_decide_true
    by (eapply Forall_impl; [exact Hrest|]; simpl; intros; congruence).
  eexists. split; [done|].
  assert (∀ c (k : nat), c ∈ columns →
    (list_to_map ((λ c', (c', default VNaN (data !! c' ≫= (.!! k)))) <$> columns)
       : row) !! c = Some (default VNaN (data !! c ≫= (.!! k)))) as Hcell.
  { intros c k Hc. apply elem_of_list_to_map_1.
    - rewrite <-list_fmap_compose. by rewrite list_fmap_id.
    - by apply (list_elem_of_fmap_2 (λ c', (c', default VNaN (data !! c' ≫= (.!! k))))). }
  split_and!.
  - by rewrite length_fmap, length_seq.
  - intros c s' Hc Hs'. unfold getitem. rewrite <-list_fmap_compose.
    rewrite Hs. rewrite <-(Hlen c s' Hc Hs').
    rewrite <-(fmap_lookup_seq VNaN s') at 2.
    apply list_fmap_ext. intros _ k _. unfold compose.
    rewrite Hcell by done. by rewrite Hs'.
  - intros c Hc Hnone. unfold getitem. rewrite <-list_fmap_compose, Hs.
    clear -Hcell Hc Hnone. generalize 0%nat.
    induction n as [|n IH]; intros i; [done|].
    simpl. f_equal; [|apply IH].
    rewrite Hcell by done. by rewrite Hnone.
  - intros r c Hr Hc. apply list_elem_of_fmap in Hr as (k & -> & _).
    apply not_elem_of_list_to_map_1.
    rewrite <-list_fmap_compose. by rewrite list_fmap_id.
Qed.

Lemma cell_20_first_response
    (results : gmap string (list (gmap string Series))) data more :
  results !! "results" = Some (data :: more) →
  cell_20 results
  = of_res (DataFrame_of_dict data ([id_column; timestamp_column] ++ target_columns)).
Proof. intros H. unfold cell_20, dict_getitem. by rewrite H. Qed.

(** X13. When the first response holds lists of one length [n] for the
    columns [id], [dteday], [casual], [registered] that it has (at least one
    of them), the forecast table has [n] rows, each such column reads back
    as the list that was sent, a column that is not in the response is all
    NaN, and no other field of the response becomes a column. *)
Theorem forecast_table_holds_the_response_columns
    (results : gmap string (list (gmap string Series))) data more n :
  let columns := [id_column; timestamp_column] ++ target_columns in
  results !! "results" = Some (data :: more) →
  (∃ c, c ∈ columns ∧ is_Some (data !! c)) →
  (∀ c s, c ∈ columns → data !! c = Some s → length s = n) →
  ∃ df_out,
    cell_20 results = inr df_out ∧ length df_out = n ∧
    (∀ c s, c ∈ columns → data !! c = Some s → getitem df_out c = s) ∧
    (∀ c, c ∈ columns → data !! c = None → getitem df_out c = replicate n VNaN) ∧
    (∀ (r : row) c, r ∈ df_out → c ∉ columns → r !! c = None).
Proof.
  intros columns Hres Hsome Hlen.
  destruct (DataFrame_of_dict_rows data columns n) as (df & Hdf & Hrest);
    [|done|done|].
  { apply (bool_decide_unpack _). vm_compute. reflexivity. }
  exists df. split; [|done].
  rewrite (cell_20_first_response _ _ _ Hres). fold columns. by rewrite Hdf.
Qed.

Lemma two_lengths_raise_ValueError (data : gmap string Series) columns c1 c2 s1 s2 :
  c1 ∈ columns → c2 ∈ columns →
  data !! c1 = Some s1 → data !! c2 = Some s2 → length s1 ≠ length s2 →
  DataFrame_of_dict data columns = inl ValueError.
Proof.
  intros Hc1 Hc2 Hs1 Hs2 Hne. unfold DataFrame_of_dict.
  assert (s1 ∈ omap (λ c, data !! c) columns) as H1
    by (apply elem_of_omap_lookup; eauto).
  assert (s2 ∈ omap (λ c, data !! c) columns) as H2
    by (apply elem_of_omap_lookup; eauto).
  destruct (omap (λ c, data !! c) columns) as [|s rest]; [by apply elem_of_nil in H1|].
  rewrite bool_decide_false; [done|]. intros Hall.
  rewrite Forall_forall in Hall.
  assert (∀ s', s' ∈ s :: rest → length s' = length s) as Hlen.
  { intros s' [->|Hs']%elem_of_cons; [done|by apply Hall]. }
  apply Hne. by rewrite (Hlen s1 H1), (Hlen s2 H2).
Qed.

(** X14. The forecast table cannot be built from a malformed response: no
    ["results"] entry raises [KeyError], an empty ["results"] list raises
    [IndexError], and two of the four columns with lists of different
    lengths raise [ValueError]. *)
Theorem malformed_response_raises
    (results : gmap string (list (gmap string Series))) :
  let columns := [id_column; timestamp_column] ++ target_columns in
  (results !! "results" = None → cell_20 results = inl (KeyError "results")) ∧
  (results !! "results" = Some [] → cell_20 results = inl IndexError) ∧
  (∀ data more c1 c2 s1 s2,
     results !! "results" = Some (data :: more) →
     c1 ∈ columns → c2 ∈ columns →
     data !! c1 = Some s1 → data !! c2 = Some s2 → length s1 ≠ length s2 →
     cell_20 results = inl (Exn ValueError)).
Proof.
  intros columns. split_and!.
  - unfold cell_20, dict_getitem. by intros ->.
  - unfold cell_20, dict_getitem. by intros ->.
  - intros data more c1 c2 s1 s2 Hres Hc1 Hc2 Hs1 Hs2 Hne.
    rewrite (cell_20_first_response _ _ _ Hres). fold columns.
    by rewrite (two_lengths_raise_ValueError data columns c1 c2 s1 s2).
Qed.

Ltac column_cases Hc :=
  repeat (apply elem_of_cons in Hc as [->|Hc]); [..|by apply elem_of_nil in Hc].

Lemma forecast_table_holds_the_response_columns_witness :
  let columns := [id_column; timestamp_column] ++ target_columns in
  ∃ df_out,
    cell_20 response_example = inr df_out ∧ length df_out = 2%nat ∧
    (∀ c s, c ∈ columns → response_data_example !! c = Some s →
            getitem df_out c = s) ∧
    (∀ c, c ∈ columns → response_data_example !! c = None →
          getitem df_out c = replicate 2 VNaN) ∧
    (∀ (r : row) c, r ∈ df_out → c ∉ columns → r !! c = None).
Proof.
  apply (forecast_table_holds_the_response_columns response_example
           response_data_example [] 2%nat).
  - apply lookup_singleton_eq.
  - exists "id"%string. split; [by left|]. vm_compute. eauto.
  - intros c s Hc Hs. column_cases Hc; vm_compute in Hs; by simplify_eq.
Defined.

Lemma malformed_response_raises_witness :
  cell_20 ∅ = inl (KeyError "results") ∧
  cell_20 {[ "results" := [] ]} = inl IndexError ∧
  cell_20 response_uneven = inl (Exn ValueError).
Proof.
  split_and!.
  - apply (malformed_response_raises ∅). apply lookup_empty.
  - apply (malformed_response_raises {[ "results" := [] ]}).
    apply lookup_singleton_eq.
  - destruct (malformed_response_raises response_uneven) as (_ & _ & H).
    apply (H response_data_uneven [] "casual"%string "id"%string
             [VInt 30] [VStr "id_0"; VStr "id_0"]).
    + apply lookup_singleton_eq.
    + do 2 right. by left.
    + by left.
    + vm_compute. reflexivity.
    + vm_compute. reflexivity.
    + simpl. lia.
Defined.

(** ** Loading and windowing in sequence *)



(** ** Edge cases of the window cell *)

(** X16. With an empty list of start offsets the loop returns two empty
    lists and the cell then raises [ValueError] from [pd.concat], in every
    store and for all lengths; what was in the store before is unchanged. *)
Theorem no_start_offset_raises_ValueError σ input_df cl pl :
  (∃ lists σ1,
     window_loop input_df [] cl pl σ = Returned lists σ1 ∧
     σ1 !! lists.1 = Some (OList []) ∧ σ1 !! lists.2 = Some (OList [])) ∧
  ∃ σ', cell_15 input_df [] cl pl σ = Raised ValueError σ' ∧ σ ⊆ σ'.
Proof.
  split; [|apply cell_15_no_offsets].
  set (a := fresh (dom σ)).
  set (b := fresh (dom (<[a := OList []]> σ))).
  assert (<[a := OList []]> σ !! b = None) as Hb
    by apply (not_elem_of_dom (D := gset loc)), is_fresh.
  apply lookup_insert_None in Hb as [_ Hne].
  exists (a, b), (<[b := OList []]> (<[a := OList []]> σ)). split_and!.
  - done.
  - simpl. rewrite lookup_insert_ne by done. by rewrite lookup_insert_eq.
  - simpl. by rewrite lookup_insert_eq.
Qed.

(** X17. No window is longer than asked for: for non-negative lengths and
    any offset whatever, the context window has at most [cl] rows and the
    future window at most [pl]. *)
Theorem windows_never_exceed_their_length series cl pl o :
  0 ≤ cl → 0 ≤ pl →
  Z.of_nat (length (context_window series cl o)) ≤ cl ∧
  Z.of_nat (length (future_window series cl pl o)) ≤ pl.
Proof.
  intros Hcl Hpl. unfold context_window, future_window.
  rewrite !length_setitem_scalar. unfold iloc, slice_bound.
  rewrite !length_take, !length_drop.
  repeat case_match; lia.
Qed.

Lemma windows_never_exceed_their_length_witness :
  Z.of_nat (length (context_window series_20000 512 (-700))) ≤ 512 ∧
  Z.of_nat (length (future_window series_20000 512 20 (-700))) ≤ 20.
Proof.
  apply (windows_never_exceed_their_length series_20000 512 20 (-700)); lia.
Defined.

(** X18. A negative offset whose context range reaches position 0 or beyond
    gives an empty context window on every series that has at least [cl]
    rows: the start counts from the end, the stop from the front. *)
Theorem straddling_offset_gives_an_empty_context series cl o :
  o < 0 → 0 ≤ o + cl → cl ≤ Z.of_nat (length series) →
  context_window series cl o = [].
Proof.
  intros Ho Hstop Hlen. apply nil_length_inv, Nat2Z.inj.
  unfold context_window. rewrite length_setitem_scalar.
  unfold iloc, slice_bound. rewrite length_take, length_drop.
  repeat case_match; lia.
Qed.

Lemma straddling_offset_gives_an_empty_context_witness :
  context_window series_20000 512 (-3) = [].
Proof.
  apply (straddling_offset_gives_an_empty_context series_20000 512 (-3));
    rewrite ?length_series_20000; lia.
Defined.

